(** * HL7 v2 ADT <-> FHIR converter: a shallow embedding and its properties

    The development follows the two directions of the program:
    - [emr_server/hl7_converter.py]: HL7 text to FHIR Patient / Coverage;
    - [integration_service/hl7_generator.py] and
      [integration_service/patient_service.py]: patient data to HL7 text.

    Python [str] values are modelled as [string] (sequences of 8-bit
    characters), Python lists as [list], [Optional[str]] as [option string],
    dictionaries with a fixed key set as records, and raised exceptions as
    the left injection of a sum. *)

From Stdlib Require Import String Ascii List Bool Arith Lia.
From Stdlib Require Import Decimal DecimalString.
Import ListNotations.

Local Open Scope list_scope.
Local Open Scope string_scope.
Local Open Scope nat_scope.

(** ** Python built-ins used by the program *)

Module Py.

Definition CR : ascii := "013"%char.
Definition LF : ascii := "010"%char.

(** Truth value of a [str]: only the empty string is false. *)
Definition truthy (s : string) : bool :=
  match s with
  | EmptyString => false
  | String _ _ => true
  end.

(** Truth value of an [Optional[str]]: [None] and [""] are false. *)
Definition truthy_opt (o : option string) : bool :=
  match o with
  | None => false
  | Some s => truthy s
  end.

(** [o or ""] for an [Optional[str]]. *)
Definition or_empty (o : option string) : string :=
  if truthy_opt o then match o with Some s => s | None => "" end else "".

(** [s.split(sep)] for a one-character separator: never returns [[]]. *)
Fixpoint split (sep : ascii) (s : string) : list string :=
  match s with
  | EmptyString => [EmptyString]
  | String c rest =>
      if Ascii.eqb c sep then EmptyString :: split sep rest
      else match split sep rest with
           | [] => [String c EmptyString]
           | x :: xs => String c x :: xs
           end
  end.

(** [sep.join(parts)]. *)
Fixpoint join (sep : string) (parts : list string) : string :=
  match parts with
  | [] => EmptyString
  | [x] => x
  | x :: rest => x ++ sep ++ join sep rest
  end.

(** [s.replace(old, new)] for a non-empty [old]: leftmost, non-overlapping
    occurrences.  [skip] counts the characters of a match still to drop. *)
Fixpoint replace_from (old new s : string) (skip : nat) : string :=
  match s with
  | EmptyString => EmptyString
  | String c rest =>
      match skip with
      | S k => replace_from old new rest k
      | O =>
          if prefix old s
          then new ++ replace_from old new rest (String.length old - 1)
          else String c (replace_from old new rest 0)
      end
  end.

Definition replace (old new s : string) : string := replace_from old new s 0.

(** [c.isspace()] on the 8-bit range covered by ASCII. *)
Definition isspace (c : ascii) : bool :=
  let n := nat_of_ascii c in
  ((9 <=? n) && (n <=? 13)) || ((28 <=? n) && (n <=? 32)).

Fixpoint lstrip (s : string) : string :=
  match s with
  | EmptyString => EmptyString
  | String c rest => if isspace c then lstrip rest else s
  end.

Fixpoint rstrip (s : string) : string :=
  match s with
  | EmptyString => EmptyString
  | String c rest =>
      match rstrip rest with
      | EmptyString => if isspace c then EmptyString else String c EmptyString
      | r => String c r
      end
  end.

(** [s.strip()]. *)
Definition strip (s : string) : string := rstrip (lstrip s).

Definition upper_char (c : ascii) : ascii :=
  let n := nat_of_ascii c in
  if (97 <=? n) && (n <=? 122) then ascii_of_nat (n - 32) else c.

(** [s.upper()], on ASCII letters. *)
Fixpoint upper (s : string) : string :=
  match s with
  | EmptyString => EmptyString
  | String c rest => String (upper_char c) (upper rest)
  end.

Fixpoint zeros (n : nat) : string :=
  match n with
  | O => EmptyString
  | S k => String "0" (zeros k)
  end.

(** [s.zfill(width)]: left padding with ['0'], kept after a leading sign. *)
Definition zfill (width : nat) (s : string) : string :=
  let fill := zeros (width - String.length s) in
  match s with
  | String c rest =>
      if Ascii.eqb c "+" || Ascii.eqb c "-"
      then String c (fill ++ rest)
      else fill ++ s
  | EmptyString => fill
  end.

(** [s[i:j]] for constant [0 <= i <= j]. *)
Definition slice (i j : nat) (s : string) : string := substring i (j - i) s.

(** [c in s]. *)
Fixpoint contains (c : ascii) (s : string) : bool :=
  match s with
  | EmptyString => false
  | String d rest => Ascii.eqb d c || contains c rest
  end.

(** [xs[i]] where the caller has checked [len(xs) > i]. *)
Definition item (xs : list string) (i : nat) : string := nth i xs EmptyString.

End Py.

(** ** Exceptions *)

Inductive exn : Type :=
| ValueError (msg : string)
| HTTPException (status_code : nat) (detail : string)
| ParseError (msg : string).

Definition Exc (A : Type) : Type := (exn + A)%type.

Definition raise {A : Type} (e : exn) : Exc A := inl e.
Definition ret {A : Type} (a : A) : Exc A := inr a.
Definition bind {A B : Type} (m : Exc A) (k : A -> Exc B) : Exc B :=
  match m with
  | inl e => inl e
  | inr a => k a
  end.

Notation "x <- m ;; k" := (bind m (fun x => k))
  (at level 61, m at next level, right associativity).

(** ** emr_server/hl7_converter.py: field-level helpers *)

(** [parse_hl7_date]: the [try]/[except] of the source guards slicing, which
    cannot raise on a [str]; the handler is unreachable. *)
Definition parse_hl7_date (date_str : string) : option string :=
  if negb (Py.truthy date_str) || (String.length date_str <? 8) then None
  else
    let year := Py.slice 0 4 date_str in
    let month := Py.slice 4 6 date_str in
    let day := Py.slice 6 8 date_str in
    Some (year ++ "-" ++ month ++ "-" ++ day).

(** ** FHIR resources

    The dictionaries built by the converter have fixed keys; each becomes a
    record.  A key that the code adds only on some paths ([subscriberId],
    [class], [name] of a class entry) and a key bound to [None] are [option]
    fields. *)

Record Coding : Type := {
  system : string;
  code : string;
  display : string
}.

Record CodeableConcept : Type := { coding : list Coding }.

Record Identifier : Type := {
  identifier_use : string;
  identifier_type : CodeableConcept;
  value : string
}.

Record HumanName : Type := {
  name_use : string;
  family : string;
  given : list string
}.

Record Patient : Type := {
  patient_resourceType : string;
  identifier : list Identifier;
  name : list HumanName;
  gender : string;
  birthDate : option string
}.

Record Reference : Type := { reference : string }.

Record Payor : Type := { payor_display : string }.

Record CoverageClass : Type := {
  class_type : CodeableConcept;
  class_value : string;
  class_name : option string
}.

Record Coverage : Type := {
  coverage_resourceType : string;
  status : string;
  beneficiary : Reference;
  payor : list Payor;
  subscriberId : option string;
  class : option (list CoverageClass)
}.

(** The record returned by [convert_hl7_to_fhir]: both keys start as [None]. *)
Record Resources : Type := {
  patient : option Patient;
  coverage : option Coverage
}.

(** ** Parsed messages

    A parsed segment always has a field at index 0 (splitting a text never
    gives an empty list), so the segment carries that field apart from the
    others.  [str(field)] is the text of the field. *)

Record Segment : Type := {
  seg_head : string;
  seg_tail : list string
}.

Definition Message : Type := list Segment.

Definition seg_fields (segment : Segment) : list string :=
  seg_head segment :: seg_tail segment.

(** [len(segment)] *)
Definition seg_len (segment : Segment) : nat := length (seg_fields segment).

(** [str(segment[i])], used under [len(segment) > i] *)
Definition seg_str (segment : Segment) (i : nat) : string :=
  Py.item (seg_fields segment) i.

Definition segment_of_fields (parts : list string) : Segment :=
  match parts with
  | [] => {| seg_head := ""; seg_tail := [] |}
  | x :: rest => {| seg_head := x; seg_tail := rest |}
  end.

(** [parse_hl7_name] *)
Definition parse_hl7_name (name_field : string) : HumanName :=
  let name_parts := Py.split "^" name_field in
  let given0 : list string := [] in
  let given1 :=
    if (1 <? length name_parts) && Py.truthy (Py.item name_parts 1)
    then (given0 ++ [Py.item name_parts 1])%list else given0 in
  let given2 :=
    if (2 <? length name_parts) && Py.truthy (Py.item name_parts 2)
    then (given1 ++ [Py.item name_parts 2])%list else given1 in
  {| name_use := "official";
     family := if 0 <? length name_parts then Py.item name_parts 0 else "";
     given := given2 |}.

Definition gender_map : list (string * string) :=
  [("M", "male"); ("F", "female"); ("O", "other"); ("U", "unknown")].

(** [d.get(key, default)] on a dictionary given by its items. *)
Fixpoint dict_get (d : list (string * string)) (key default : string) : string :=
  match d with
  | [] => default
  | (k, v) :: rest => if String.eqb k key then v else dict_get rest key default
  end.

Definition MR_coding : Coding :=
  {| system := "http://terminology.hl7.org/CodeSystem/v2-0203";
     code := "MR";
     display := "Medical Record Number" |}.

Definition group_coding : Coding :=
  {| system := "http://terminology.hl7.org/CodeSystem/coverage-class";
     code := "group";
     display := "Group" |}.

Definition plan_coding : Coding :=
  {| system := "http://terminology.hl7.org/CodeSystem/coverage-class";
     code := "plan";
     display := "Plan" |}.

(** ** Tokenizer *)

Definition CRs : string := String Py.CR EmptyString.
Definition LFs : string := String Py.LF EmptyString.

(** Modelled from the spec: [hl7.parse] belongs to the python-hl7 package,
    which is not part of the repository.  Following sections 4.1 and 4.2 of
    the spec: surrounding whitespace (hence empty trailing segments) is
    dropped, an empty text is a parse error, the text is cut into segments
    at carriage returns and each segment into fields at the field separator,
    which a header segment declares in its fourth character and which is the
    vertical bar otherwise. *)
Definition field_separator (strmsg : string) : ascii :=
  if prefix "MSH" strmsg
  then match get 3 strmsg with
       | Some c => c
       | None => "|"%char
       end
  else "|"%char.

Definition parse_segment (sep : ascii) (text : string) : Segment :=
  segment_of_fields (Py.split sep text).

Definition hl7_parse (lines : string) : Exc Message :=
  let strmsg := Py.strip lines in
  if negb (Py.truthy strmsg) then raise (ParseError "empty message")
  else ret (map (parse_segment (field_separator strmsg)) (Py.split Py.CR strmsg)).

(** [parse_hl7_message]: line ends are normalised to CR, then [hl7.parse]. *)
Definition parse_hl7_message (hl7_message : string) : Exc Message :=
  let hl7_message := Py.replace LFs CRs (Py.replace (CRs ++ LFs) CRs hl7_message) in
  hl7_parse hl7_message.

Section Converter.

(** The converter tests fields for truth ([pid_segment[3]] and the like).  A
    field with text is true.  For a field with empty text the answer lies in
    the python-hl7 container class, outside this repository: the spec treats
    such a field as absent, the package keeps a one-element container.  The
    development is parametric in that answer. *)
Variable empty_field_truth : bool.

Definition field_truth (text : string) : bool :=
  if Py.truthy text then true else empty_field_truth.

(** [len(segment) > i and segment[i]] *)
Definition has_field (segment : Segment) (i : nat) : bool :=
  (i <? seg_len segment) && field_truth (seg_str segment i).

(** [pid_to_fhir_patient]: the dictionary is created and then updated in
    place; each update is a new binding here. *)
Definition pid_to_fhir_patient (pid_segment : Segment) : Patient :=
  let identifier0 : list Identifier := [] in
  let name0 : list HumanName := [] in
  let gender0 := "unknown" in
  let birthDate0 : option string := None in
  let identifier1 :=
    if has_field pid_segment 3 then
      let mrn := Py.item (Py.split "^" (seg_str pid_segment 3)) 0 in
      (identifier0 ++ [ {| identifier_use := "usual";
                           identifier_type := {| coding := [MR_coding] |};
                           value := mrn |} ])%list
    else identifier0 in
  let name1 :=
    if has_field pid_segment 5
    then (name0 ++ [parse_hl7_name (seg_str pid_segment 5)])%list
    else name0 in
  let birthDate1 :=
    if has_field pid_segment 7 then
      match parse_hl7_date (seg_str pid_segment 7) with
      | Some dob => if Py.truthy dob then Some dob else birthDate0
      | None => birthDate0
      end
    else birthDate0 in
  let gender1 :=
    if has_field pid_segment 8 then
      let gender_code := Py.upper (seg_str pid_segment 8) in
      dict_get gender_map gender_code "unknown"
    else gender0 in
  {| patient_resourceType := "Patient";
     identifier := identifier1;
     name := name1;
     gender := gender1;
     birthDate := birthDate1 |}.

(** [coverage["class"].append(entry)], after [coverage["class"] = []] when
    the key is missing. *)
Definition class_append (cls : option (list CoverageClass)) (entry : CoverageClass)
  : option (list CoverageClass) :=
  match cls with
  | None => Some [entry]
  | Some l => Some (l ++ [entry])%list
  end.

(** [in1_to_fhir_coverage] *)
Definition in1_to_fhir_coverage (in1_segment : Segment) (patient_reference : string)
  : Coverage :=
  let payor0 : list Payor := [] in
  let subscriberId0 : option string := None in
  let class0 : option (list CoverageClass) := None in
  let subscriberId1 :=
    if has_field in1_segment 2
    then Some (Py.item (Py.split "^" (seg_str in1_segment 2)) 0)
    else subscriberId0 in
  let payor1 :=
    if has_field in1_segment 4
    then (payor0 ++ [ {| payor_display := seg_str in1_segment 4 |} ])%list
    else payor0 in
  let class1 :=
    if has_field in1_segment 8 then
      let group_number := Py.strip (seg_str in1_segment 8) in
      if Py.truthy group_number then
        class_append class0
          {| class_type := {| coding := [group_coding] |};
             class_value := group_number;
             class_name := None |}
      else class0
    else class0 in
  let class2 :=
    if has_field in1_segment 9 then
      let plan_name := Py.strip (seg_str in1_segment 9) in
      if Py.truthy plan_name then
        class_append class1
          {| class_type := {| coding := [plan_coding] |};
             class_value := plan_name;
             class_name := Some plan_name |}
      else class1
    else class1 in
  {| coverage_resourceType := "Coverage";
     status := "active";
     beneficiary := {| reference := patient_reference |};
     payor := payor1;
     subscriberId := subscriberId1;
     class := class2 |}.

(** One turn of the [for segment in message] loop on the pair
    [(pid_segment, in1_segment)]. *)
Definition scan_step (found : option Segment * option Segment) (segment : Segment)
  : option Segment * option Segment :=
  let segment_type := seg_str segment 0 in
  if String.eqb segment_type "PID" then (Some segment, snd found)
  else if String.eqb segment_type "IN1" then (fst found, Some segment)
  else found.

Definition scan (message : Message) : option Segment * option Segment :=
  fold_left scan_step message (None, None).

(** The part of [convert_hl7_to_fhir] after the loop.  A found segment is a
    non-empty container, hence true. *)
Definition assemble (pid_segment in1_segment : option Segment) : Resources :=
  match pid_segment with
  | Some pid =>
      let p := pid_to_fhir_patient pid in
      match in1_segment with
      | Some in1 =>
          let patient_id :=
            match identifier p with
            | i :: _ => value i
            | [] => "temp"
            end in
          {| patient := Some p;
             coverage := Some (in1_to_fhir_coverage in1 ("Patient/" ++ patient_id)) |}
      | None => {| patient := Some p; coverage := None |}
      end
  | None => {| patient := None; coverage := None |}
  end.

(** [convert_hl7_to_fhir] on the parsed message. *)
Definition convert_message (message : Message) : Resources :=
  let found := scan message in
  assemble (fst found) (snd found).

(** [convert_hl7_to_fhir] *)
Definition convert_hl7_to_fhir (hl7_message : string) : Exc Resources :=
  message <- parse_hl7_message hl7_message ;;
  ret (convert_message message).

End Converter.

(** ** The clock

    [datetime.now()] is the only input of the generators that is not an
    argument; it is passed explicitly. *)

Record datetime : Type := {
  dt_year : nat;
  dt_month : nat;
  dt_day : nat;
  dt_hour : nat;
  dt_minute : nat;
  dt_second : nat
}.

Definition decimal (n : nat) : string := NilEmpty.string_of_uint (Nat.to_uint n).

(** A number printed in at least [width] digits. *)
Definition padded (width n : nat) : string :=
  Py.zeros (width - String.length (decimal n)) ++ decimal n.

(** [now.strftime("%Y%m%d%H%M%S")] *)
Definition strftime_YmdHMS (now : datetime) : string :=
  padded 4 (dt_year now) ++ padded 2 (dt_month now) ++ padded 2 (dt_day now)
  ++ padded 2 (dt_hour now) ++ padded 2 (dt_minute now) ++ padded 2 (dt_second now).

(** [x in xs] for a list of strings. *)
Definition str_in (x : string) (xs : list string) : bool :=
  existsb (String.eqb x) xs.

(** The text of an [Optional[str]] that has been tested true. *)
Definition str_of (o : option string) : string :=
  match o with
  | Some s => s
  | None => ""
  end.

(** ** integration_service/hl7_generator.py *)

Module Hl7Generator.

(** [format_date_for_hl7]: the test [len(parts) != 3] and the unpacking
    [month, day, year = parts] are one pattern match. *)
Definition format_date_for_hl7 (date_str : string) : Exc string :=
  let parts := Py.split "/" date_str in
  match parts with
  | [month; day; year] => ret (year ++ Py.zfill 2 month ++ Py.zfill 2 day)
  | _ => raise (ValueError ("Invalid date format. Expected MM/DD/YYYY, got " ++ date_str))
  end.

(** The list [in1_parts] as it stands before [join]. *)
Definition in1_parts (insurance_name member_id plan group_number : option string)
  : list string :=
  let in1_parts0 :=
    [ "IN1";
      "1";
      Py.or_empty member_id;
      "";
      Py.or_empty insurance_name;
      "";
      "";
      "";
      "" ] in
  let in1_parts1 :=
    if Py.truthy_opt group_number
    then (in1_parts0 ++ [str_of group_number])%list
    else (in1_parts0 ++ [""])%list in
  let in1_parts2 :=
    if Py.truthy_opt plan
    then (in1_parts1 ++ [str_of plan])%list
    else in1_parts1 in
  in1_parts2.

(** The list [segments] as it stands before the final [join]. *)
Definition segments_of (now : datetime)
    (mrn : option string) (last_name first_name dob gender : string)
    (insurance_name member_id plan group_number : option string)
  : Exc (list string) :=
  let timestamp := strftime_YmdHMS now in
  let mrn := if negb (Py.truthy_opt mrn) then "MRN" ++ timestamp else str_of mrn in
  let msg_id := "MSG" ++ timestamp in
  let msh := "MSH|^~\&|INTEGRATION|CLINIC|EMR|HOSPITAL|" ++ timestamp
             ++ "||ADT^A04|" ++ msg_id ++ "|P|2.5" in
  hl7_dob <- format_date_for_hl7 dob ;;
  let hl7_gender := if str_in (Py.upper gender) ["MALE"; "M"] then "M" else "F" in
  let pid := "PID|1||" ++ mrn ++ "^^^MRN||" ++ last_name ++ "^" ++ first_name
             ++ "||" ++ hl7_dob ++ "|" ++ hl7_gender in
  let segments := [msh; pid] in
  let segments :=
    if Py.truthy_opt insurance_name && Py.truthy_opt member_id then
      let in1 := Py.join "|" (in1_parts insurance_name member_id plan group_number) in
      (segments ++ [in1])%list
    else segments in
  ret segments.

(** [generate_hl7_adt_message] *)
Definition generate_hl7_adt_message (now : datetime)
    (mrn : option string) (last_name first_name dob gender : string)
    (insurance_name member_id plan group_number : option string)
  : Exc string :=
  segments <- segments_of now mrn last_name first_name dob gender
                insurance_name member_id plan group_number ;;
  ret (Py.join CRs segments).

End Hl7Generator.

(** ** integration_service/patient_service.py *)

Module PatientService.

Record InsuranceInfo : Type := {
  name : string;
  memberID : string;
  plan : string;
  groupNumber : string
}.

Record PatientData : Type := {
  mrn : option string;
  lastName : string;
  firstName : string;
  dob : string;
  gender : string;
  insurance : option InsuranceInfo
}.

(** [format_date_for_hl7]: whatever is raised inside the [try] is replaced
    by an [HTTPException] with status 400. *)
Definition format_date_for_hl7 (date_str : string) : Exc string :=
  let attempt : Exc string :=
    let parts := Py.split "/" date_str in
    match parts with
    | [month; day; year] => ret (year ++ Py.zfill 2 month ++ Py.zfill 2 day)
    | _ => raise (ValueError "Invalid date format")
    end in
  match attempt with
  | inr r => ret r
  | inl _ =>
      raise (HTTPException 400
               ("Invalid date format. Expected MM/DD/YYYY, got " ++ date_str))
  end.

(** [generate_hl7_message]; a model instance is always true, so
    [if patient_data.insurance] tests for [None] only. *)
Definition generate_hl7_message (now : datetime) (patient_data : PatientData)
  : Exc string :=
  let timestamp := strftime_YmdHMS now in
  let msg_id := "MSG" ++ timestamp in
  let msh := "MSH|^~\&|INTEGRATION|CLINIC|EMR|HOSPITAL|" ++ timestamp
             ++ "||ADT^A04|" ++ msg_id ++ "|P|2.5" in
  let mrn := if Py.truthy_opt (mrn patient_data)
             then str_of (mrn patient_data) else "MRN" ++ timestamp in
  let last_name := lastName patient_data in
  let first_name := firstName patient_data in
  dob <- format_date_for_hl7 (dob patient_data) ;;
  let gender := if str_in (Py.upper (gender patient_data)) ["MALE"; "M"]
                then "M" else "F" in
  let pid := "PID|1||" ++ mrn ++ "^^^MRN||" ++ last_name ++ "^" ++ first_name
             ++ "||" ++ dob ++ "|" ++ gender in
  let segments := [msh; pid] in
  let segments :=
    match insurance patient_data with
    | Some ins =>
        let in1 := "IN1|1|" ++ memberID ins ++ "||" ++ name ins ++ "|||||"
                   ++ groupNumber ins ++ "|" ++ plan ins in
        (segments ++ [in1])%list
    | None => segments
    end in
  ret (Py.join CRs segments).

End PatientService.

(** ** integration_service/hl7_generator.py: the message inspector *)

Record MessageInfo : Type := {
  segment_count : nat;
  segments : list string
}.

(** [parse_hl7_message_info]: the text is cut at carriage returns as it is;
    every non-empty piece contributes its first three characters. *)
Definition parse_hl7_message_info (hl7_message : string) : MessageInfo :=
  let pieces := Py.split Py.CR hl7_message in
  {| segment_count := length pieces;
     segments :=
       fold_left
         (fun types segment =>
            if Py.truthy segment
            then (types ++ [Py.slice 0 3 segment])%list
            else types)
         pieces [] |}.

(** ** emr_server/auth.py: the token store

    The module-level dictionary [token_store] is passed in and out
    explicitly.  A clock reading is a number of clock units; the generated
    token and the readings of [datetime.now()] are arguments, in the order in
    which the code takes them. *)

Record TokenData : Type := {
  created_at : nat;
  expires_at : nat
}.

(** A dictionary from token to token data. *)
Definition TokenStore : Type := string -> option TokenData.

Definition empty_store : TokenStore := fun _ => None.

(** [store[key] = data] *)
Definition store_set (store : TokenStore) (key : string) (data : TokenData)
  : TokenStore :=
  fun k => if String.eqb k key then Some data else store k.

(** [del store[key]] *)
Definition store_del (store : TokenStore) (key : string) : TokenStore :=
  fun k => if String.eqb k key then None else store k.

Section Auth.

(** [timedelta(hours=24)] in clock units. *)
Variable hours_24 : nat.

(** [create_access_token]: [token] is the value of
    [secrets.token_urlsafe(32)], [now1] and [now2] are the two clock
    readings. *)
Definition create_access_token (token : string) (now1 now2 : nat)
    (token_store : TokenStore) : string * TokenStore :=
  (token,
   store_set token_store token
     {| created_at := now1; expires_at := now2 + hours_24 |}).

(** [validate_token] *)
Definition validate_token (token : string) (now : nat) (token_store : TokenStore)
  : bool * TokenStore :=
  match token_store token with
  | None => (false, token_store)
  | Some token_data =>
      if expires_at token_data <? now
      then (false, store_del token_store token)
      else (true, token_store)
  end.

(** [verify_token], on the token of the credentials; the response headers
    of the exception are not modelled. *)
Definition verify_token (token : string) (now : nat) (token_store : TokenStore)
  : Exc string * TokenStore :=
  let (valid, token_store') := validate_token token now token_store in
  if negb valid
  then (raise (HTTPException 401 "Invalid or expired token"), token_store')
  else (ret token, token_store').

End Auth.

(** ** Answers of the FHIR server

    The functions that talk to the FHIR server are modelled on the answer
    they receive.  Of the JSON of an answer, the keys that the code reads are
    kept: a missing "entry", "identifier" or "resource" is the empty list or
    the resource without identifiers, a missing "total" is 0, as the
    defaults of [get] in the code have it. *)

Record JsonIdentifier : Type := { json_value : option string }.

Record JsonPatient : Type := {
  json_id : string;
  json_identifier : list JsonIdentifier
}.

Record JsonEntry : Type := { json_resource : JsonPatient }.

Record JsonBundle : Type := {
  json_total : nat;
  json_entry : list JsonEntry
}.

Record SearchResponse : Type := {
  search_status : nat;
  search_json : JsonBundle
}.

(** [identifier.get("value") == mrn] *)
Definition value_is (mrn : string) (identifier : JsonIdentifier) : bool :=
  match json_value identifier with
  | Some v => String.eqb v mrn
  | None => false
  end.

(** The inner loop: some identifier of the patient has the value. *)
Definition has_mrn (mrn : string) (patient : JsonPatient) : bool :=
  existsb (value_is mrn) (json_identifier patient).

(** The outer loop: the resource of the first entry with such an
    identifier. *)
Fixpoint scan_entries (mrn : string) (entries : list JsonEntry)
  : option JsonPatient :=
  match entries with
  | [] => None
  | entry :: rest =>
      let patient := json_resource entry in
      if has_mrn mrn patient then Some patient else scan_entries mrn rest
  end.

(** Truth value of a list. *)
Definition truthy_list {A : Type} (xs : list A) : bool :=
  match xs with
  | [] => false
  | _ :: _ => true
  end.

(** emr_server/hl7_endpoint.py, [search_patient_by_mrn], on the answer to
    its request. *)
Definition search_patient_by_mrn (mrn : string) (response : SearchResponse)
  : option JsonPatient :=
  if search_status response =? 200 then
    let bundle := search_json response in
    if truthy_list (json_entry bundle)
    then scan_entries mrn (json_entry bundle)
    else None
  else None.

(** integration_service/patient_service.py, [check_patient_exists], on the
    answer to its request (which it sends only for a non-empty MRN). *)
Definition check_patient_exists (mrn : string) (response : SearchResponse)
  : option JsonPatient :=
  if negb (Py.truthy mrn) then None
  else if negb (search_status response =? 200) then None
  else
    let bundle := search_json response in
    if (0 <? json_total bundle) && truthy_list (json_entry bundle)
    then scan_entries mrn (json_entry bundle)
    else None.

(** ** emr_server/hl7_endpoint.py: the inbound endpoint

    The requests that the endpoint sends are returned as a log, in order,
    beside its result; the FHIR server is given by its answers. *)

Record PostResponse : Type := {
  post_status : nat;
  post_text : string;
  post_id : string
}.

(** [create_fhir_resource] on the answer to its request; of the JSON that
    it returns, the "id" is kept, which is all that the caller reads. *)
Definition create_fhir_resource (resource_type : string) (response : PostResponse)
  : Exc string :=
  if negb ((post_status response =? 200) || (post_status response =? 201))
  then raise (HTTPException (post_status response)
                ("Failed to create " ++ resource_type ++ ": " ++ post_text response))
  else ret (post_id response).

Inductive Request : Type :=
| GetPatients
| PostPatient (resource : Patient)
| PostCoverage (resource : Coverage).

Record Summary : Type := {
  patient_action : string;
  patient_id_of : string;
  coverage_action : option string;
  coverage_id_of : option string
}.

(** [str(e)] for the exceptions of the converter: the message. *)
Definition exn_str (e : exn) : string :=
  match e with
  | ValueError msg => msg
  | ParseError msg => msg
  | HTTPException _ detail => detail
  end.

(** [coverage_resource["beneficiary"]["reference"] = ...] *)
Definition set_reference (c : Coverage) (ref : string) : Coverage :=
  {| coverage_resourceType := coverage_resourceType c;
     status := status c;
     beneficiary := {| reference := ref |};
     payor := payor c;
     subscriberId := subscriberId c;
     class := class c |}.

Section Endpoint.

Variable empty_field_truth : bool.

(** The answers of the FHIR server: to the search for all patients, and to
    the creation of a Patient and of a Coverage. *)
Variable all_patients : SearchResponse.
Variable post_patient : Patient -> PostResponse.
Variable post_coverage : Coverage -> PostResponse.

(** The last part of [receive_hl7_message]: the coverage, once the id of
    the patient is known. *)
Definition handle_coverage (fhir_coverage : option Coverage)
    (action patient_id : string) (log : list Request)
  : Exc Summary * list Request :=
  match fhir_coverage with
  | Some coverage_resource =>
      let coverage_resource :=
        set_reference coverage_resource ("Patient/" ++ patient_id) in
      let log := (log ++ [PostCoverage coverage_resource])%list in
      match create_fhir_resource "Coverage" (post_coverage coverage_resource) with
      | inl e => (inl e, log)
      | inr created_id =>
          (ret {| patient_action := action;
                  patient_id_of := patient_id;
                  coverage_action := Some "created";
                  coverage_id_of := Some created_id |}, log)
      end
  | None =>
      (ret {| patient_action := action;
              patient_id_of := patient_id;
              coverage_action := None;
              coverage_id_of := None |}, log)
  end.

(** [receive_hl7_message], on the decoded body of the request. *)
Definition receive_hl7_message (hl7_message : string)
  : Exc Summary * list Request :=
  if negb (Py.truthy hl7_message)
  then (raise (HTTPException 400 "Empty HL7 message"), [])
  else
    match convert_hl7_to_fhir empty_field_truth hl7_message with
    | inl e =>
        (raise (HTTPException 400 ("Failed to parse HL7 message: " ++ exn_str e)),
         [])
    | inr fhir_resources =>
        match patient fhir_resources with
        | None =>
            (raise (HTTPException 400
                      "No patient information found in HL7 message"), [])
        | Some patient_resource =>
            let mrn :=
              match identifier patient_resource with
              | i :: _ => Some (value i)
              | [] => None
              end in
            let '(existing_patient, log) :=
              if Py.truthy_opt mrn
              then (search_patient_by_mrn (str_of mrn) all_patients, [GetPatients])
              else (None, []) in
            match existing_patient with
            | Some existing =>
                handle_coverage (coverage fhir_resources) "found"
                  (json_id existing) log
            | None =>
                let log := (log ++ [PostPatient patient_resource])%list in
                match create_fhir_resource "Patient"
                        (post_patient patient_resource) with
                | inl e => (inl e, log)
                | inr created_id =>
                    handle_coverage (coverage fhir_resources) "created"
                      created_id log
                end
            end
        end
    end.

End Endpoint.

(** ** Definitions used in the statements *)

(** Number of occurrences of a character. *)
Fixpoint count_char (c : ascii) (s : string) : nat :=
  match s with
  | EmptyString => 0
  | String d rest => (if Ascii.eqb d c then 1 else 0) + count_char c rest
  end.

(** The table of section 4.3 applied to an upper-cased code. *)
Definition gender_table (gender_code : string) : string :=
  if String.eqb gender_code "M" then "male"
  else if String.eqb gender_code "F" then "female"
  else if String.eqb gender_code "O" then "other"
  else if String.eqb gender_code "U" then "unknown"
  else "unknown".

(** A PID segment whose field 8 is [sex]; [None] ends the segment at field 7. *)
Definition pid_with_sex (sex : option string) : Segment :=
  {| seg_head := "PID";
     seg_tail := ["1"; ""; "MRN1^^^MRN"; ""; "Smith^John"; ""; "19801215"]
                 ++ match sex with Some s => [s] | None => [] end |}.

Definition invalid_date (date_str : string) : exn :=
  ValueError ("Invalid date format. Expected MM/DD/YYYY, got " ++ date_str).

Definition is_type (ty : string) (segment : Segment) : bool :=
  String.eqb (seg_str segment 0) ty.

Definition has_segment (ty : string) (message : Message) : bool :=
  existsb (is_type ty) message.

Definition first_segment (ty : string) (message : Message) : option Segment :=
  find (is_type ty) message.

Definition last_segment (ty : string) (message : Message) : option Segment :=
  find (is_type ty) (List.rev message).

(** What the loop leaves in a variable: the later match wins. *)
Definition later (old new : option Segment) : option Segment :=
  match new with
  | Some s => Some s
  | None => old
  end.

(** The id that [convert_hl7_to_fhir] puts into the beneficiary reference. *)
Definition patient_id (p : Patient) : string :=
  match identifier p with
  | i :: _ => value i
  | [] => "temp"
  end.

Definition header_2023 : string :=
  "MSH|^~\&|EPIC|HOSPITAL|EMR|CLINIC|20231031120000||ADT^A04|MSG00001|P|2.5".

(** A message with two PID and two IN1 segments. *)
Definition duplicates_text : string :=
  header_2023 ++ CRs
  ++ "PID|1||FIRST^^^MRN||One^Pat||19800101|M" ++ CRs
  ++ "IN1|1|SUB1||PayorOne" ++ CRs
  ++ "PID|1||SECOND^^^MRN||Two^Pat||19900202|F" ++ CRs
  ++ "IN1|1|SUB2||PayorTwo".

(** The identifier values of the Patient and the subscriber id of the
    Coverage of a result. *)
Definition result_ids (r : Exc Resources) : option (list string * option string) :=
  match r with
  | inr {| patient := Some p; coverage := Some c |} =>
      Some (map value (identifier p), subscriberId c)
  | _ => None
  end.

(** A PID segment without identifier, followed by an IN1 segment. *)
Definition no_identifier_text : string :=
  header_2023 ++ CRs ++ "PID|1" ++ CRs ++ "IN1|1|SUB1||PayorOne".

Definition no_insurance_text : string :=
  header_2023 ++ CRs ++ "PID|1||MRN7^^^MRN||Doe^Jane||19750101|F".

Definition no_patient_text : string :=
  header_2023 ++ CRs ++ "IN1|1|SUB1||PayorOne".

Definition is_digit (c : ascii) : bool :=
  let n := nat_of_ascii c in (48 <=? n) && (n <=? 57).

Fixpoint all_digits (s : string) : bool :=
  match s with
  | EmptyString => true
  | String c rest => is_digit c && all_digits rest
  end.

(** What follows ["MSH|"] in the header that both generators write. *)
Definition header_body (timestamp : string) : string :=
  "^~\&|INTEGRATION|CLINIC|EMR|HOSPITAL|" ++ timestamp
  ++ "||ADT^A04|" ++ ("MSG" ++ timestamp) ++ "|P|2.5".

Definition patient_MRN1 : Patient :=
  {| patient_resourceType := "Patient";
     identifier := [ {| identifier_use := "usual";
                        identifier_type := {| coding := [MR_coding] |};
                        value := "MRN1" |} ];
     name := [ {| name_use := "official";
                  family := "Smith";
                  given := ["John"] |} ];
     gender := "male";
     birthDate := Some "1980-12-15" |}.

Definition group_class (group_number : string) : CoverageClass :=
  {| class_type := {| coding := [group_coding] |};
     class_value := group_number;
     class_name := None |}.

Definition plan_class (plan_name : string) : CoverageClass :=
  {| class_type := {| coding := [plan_coding] |};
     class_value := plan_name;
     class_name := Some plan_name |}.

Definition patient_MRN123456 : Patient :=
  {| patient_resourceType := "Patient";
     identifier := [ {| identifier_use := "usual";
                        identifier_type := {| coding := [MR_coding] |};
                        value := "MRN123456" |} ];
     name := [ {| name_use := "official";
                  family := "Smith";
                  given := ["John"; "A"] |} ];
     gender := "male";
     birthDate := Some "1980-12-15" |}.

Definition coverage_PPO123 : Coverage :=
  {| coverage_resourceType := "Coverage";
     status := "active";
     beneficiary := {| reference := "Patient/MRN123456" |};
     payor := [ {| payor_display := "BlueCross BlueShield" |} ];
     subscriberId := Some "PPO123";
     class := Some [group_class "GRP456789"; plan_class "Gold Plan PPO"] |}.

(** The message of section 8 of the spec, its elided fields filled so that
    the group number is field 8 and the plan field 9 of the IN1 segment. *)
Definition scenario_text : string :=
  header_2023 ++ CRs
  ++ "PID|1||MRN123456^^^MRN||Smith^John^A||19801215|M|||123 Main St^^Boston^MA^02101||555-1234|||S||ACCT123456"
  ++ CRs
  ++ "IN1|1|PPO123|BC001|BlueCross BlueShield|PO Box 1234^^Boston^MA^02101|||GRP456789|Gold Plan PPO".

(** The message of [test_server.py], written there with line feeds: its IN1
    segment has two more empty fields before the group number. *)
Definition test_server_text : string :=
  header_2023 ++ LFs
  ++ "PID|1||MRN123456^^^MRN||Smith^John^A||19801215|M|||123 Main St^^Boston^MA^02101||555-1234|||S||ACCT123456"
  ++ LFs
  ++ "IN1|1|PPO123|BC001|BlueCross BlueShield|PO Box 1234^^Boston^MA^02101|||||GRP456789|Gold Plan PPO".

Definition clock_2023 : datetime :=
  {| dt_year := 2023; dt_month := 10; dt_day := 31;
     dt_hour := 12; dt_minute := 0; dt_second := 0 |}.

(** The fields of the third segment of a generated message, if any. *)
Definition third_segment_fields (text : Exc string) : option (list string) :=
  match text with
  | inr t =>
      match parse_hl7_message t with
      | inr [_; _; in1] => Some (seg_fields in1)
      | _ => None
      end
  | inl _ => None
  end.

(** The class entries that the spec expects for a group number and a plan
    name, both already stripped: group first, then plan, no key when there
    is neither. *)
Definition class_entries (group_number plan_name : string)
  : option (list CoverageClass) :=
  match ((if Py.truthy group_number then [group_class group_number] else [])
         ++ (if Py.truthy plan_name then [plan_class plan_name] else []))%list
  with
  | [] => None
  | entries => Some entries
  end.

(** ** Definitions used in the further statements *)

Definition no_line_end (s : string) : Prop :=
  Py.contains Py.CR s = false /\ Py.contains Py.LF s = false.

(** A text without field, component or segment separators. *)
Definition plain (s : string) : bool :=
  negb (Py.contains "|" s) && negb (Py.contains "^" s)
  && negb (Py.contains Py.CR s) && negb (Py.contains Py.LF s).

(** The MRN that the generators write: the one supplied, else "MRN" and the
    timestamp. *)
Definition effective_mrn (now : datetime) (mrn : option string) : string :=
  if Py.truthy_opt mrn then str_of mrn else "MRN" ++ strftime_YmdHMS now.

(** The PID segment that both generators write. *)
Definition pid_line (mrn last_name first_name hl7_dob hl7_gender : string) : string :=
  "PID|1||" ++ mrn ++ "^^^MRN||" ++ last_name ++ "^" ++ first_name
  ++ "||" ++ hl7_dob ++ "|" ++ hl7_gender.

Definition gender_code (gender : string) : string :=
  if str_in (Py.upper gender) ["MALE"; "M"] then "M" else "F".

(** The Patient that comes back from a generated message. *)
Definition generated_patient (mrn last_name first_name gender : string)
    (birth_date : option string) : Patient :=
  {| patient_resourceType := "Patient";
     identifier := [ {| identifier_use := "usual";
                        identifier_type := {| coding := [MR_coding] |};
                        value := mrn |} ];
     name := [ {| name_use := "official";
                  family := last_name;
                  given := filter Py.truthy [first_name] |} ];
     gender := if str_in (Py.upper gender) ["MALE"; "M"] then "male" else "female";
     birthDate := birth_date |}.

(** A text that [rstrip] leaves alone and that is not empty. *)
Definition keeps_end (s : string) : Prop := Py.rstrip s = s /\ s <> "".

(** The Coverage that comes back from a generated message. *)
Definition generated_coverage (mrn insurance_name member_id : string)
    (group_number : option string) : Coverage :=
  {| coverage_resourceType := "Coverage";
     status := "active";
     beneficiary := {| reference := "Patient/" ++ mrn |};
     payor := [ {| payor_display := insurance_name |} ];
     subscriberId := Some member_id;
     class := class_entries "" (Py.strip (Py.or_empty group_number)) |}.

(** An optional text that is plain and does not end in whitespace. *)
Definition plain_opt (o : option string) : Prop :=
  forall s, o = Some s -> plain s = true /\ Py.rstrip s = s.

(** The IN1 segment that [generate_hl7_message] writes. *)
Definition patient_service_in1 (ins : PatientService.InsuranceInfo) : string :=
  "IN1|1|" ++ PatientService.memberID ins ++ "||" ++ PatientService.name ins
  ++ "|||||" ++ PatientService.groupNumber ins ++ "|" ++ PatientService.plan ins.

(** The two generators on the same patient and insurance. *)
Definition by_generator (now : datetime) (mrn : option string)
    (last_name first_name dob gender : string)
    (ins : PatientService.InsuranceInfo) : Exc string :=
  Hl7Generator.generate_hl7_adt_message now mrn last_name first_name dob gender
    (Some (PatientService.name ins)) (Some (PatientService.memberID ins))
    (Some (PatientService.plan ins)) (Some (PatientService.groupNumber ins)).

Definition by_patient_service (now : datetime) (mrn : option string)
    (last_name first_name dob gender : string)
    (ins : PatientService.InsuranceInfo) : Exc string :=
  PatientService.generate_hl7_message now
    {| PatientService.mrn := mrn;
       PatientService.lastName := last_name;
       PatientService.firstName := first_name;
       PatientService.dob := dob;
       PatientService.gender := gender;
       PatientService.insurance := Some ins |}.

(** The MRN that the endpoint looks up: the value of the first identifier. *)
Definition first_mrn (p : Patient) : option string :=
  match identifier p with
  | i :: _ => Some (value i)
  | [] => None
  end.

(** The patient that the endpoint finds on the server, if it looks. *)
Definition existing_patient (all_patients : SearchResponse) (p : Patient)
  : option JsonPatient :=
  if Py.truthy_opt (first_mrn p)
  then search_patient_by_mrn (str_of (first_mrn p)) all_patients
  else None.

(** A server that knows one patient, of MRN "MRN123456", and creates
    whatever it is sent. *)
Definition server_patients : SearchResponse :=
  {| search_status := 200;
     search_json :=
       {| json_total := 1;
          json_entry :=
            [ {| json_resource :=
                   {| json_id := "srv-1";
                      json_identifier :=
                        [ {| json_value := Some "MRN123456" |} ] |} |} ] |} |}.

Definition server_creates (id : string) : PostResponse :=
  {| post_status := 201; post_text := ""; post_id := id |}.

(** * Properties *)

(** ** Strings *)

Lemma split_nonempty (sep : ascii) (s : string) : Py.split sep s <> [].
Proof.
  destruct s as [|c rest]; simpl; [discriminate|].
  destruct (Ascii.eqb c sep); [discriminate|].
  destruct (Py.split sep rest); discriminate.
Qed.

Lemma split_length (sep : ascii) (s : string) :
  length (Py.split sep s) = S (count_char sep s).
Proof.
  induction s as [|c rest IH]; simpl; [reflexivity|].
  destruct (Ascii.eqb c sep); simpl.
  - now rewrite IH.
  - destruct (Py.split sep rest) eqn:E; simpl in *; [discriminate|exact IH].
Qed.

Lemma contains_app (c : ascii) (a b : string) :
  Py.contains c (a ++ b) = Py.contains c a || Py.contains c b.
Proof.
  induction a as [|d a IH]; simpl; [reflexivity|].
  now rewrite IH, orb_assoc.
Qed.

Lemma app_assoc_str (a b c : string) : (a ++ b) ++ c = a ++ (b ++ c).
Proof. induction a as [|d a IH]; simpl; [reflexivity|now rewrite IH]. Qed.

(** ** The date normalizer *)

Lemma long_string_inv (s : string) :
  8 <= String.length s ->
  exists c0 c1 c2 c3 c4 c5 c6 c7 rest,
    s = String c0 (String c1 (String c2 (String c3
        (String c4 (String c5 (String c6 (String c7 rest))))))).
Proof.
  intros H.
  do 8 (destruct s as [|? s]; [simpl in H; lia|]).
  repeat eexists.
Qed.

(** C7. For a date string of at least 8 characters the normalizer returns
    characters 0-3, a dash, characters 4-5, a dash and characters 6-7 (so the
    result has 10 characters whose slices [0:4], [5:7] and [8:10] are the
    slices [0:4], [4:6] and [6:8] of the input); for a string shorter than
    8 characters, the empty one included, it returns no value.  The slices are
    taken in the branch behind the length test only. *)
Theorem parse_hl7_date_spec (D : string) :
  (8 <= String.length D ->
     parse_hl7_date D
       = Some (Py.slice 0 4 D ++ "-" ++ Py.slice 4 6 D ++ "-" ++ Py.slice 6 8 D)
     /\ exists R, parse_hl7_date D = Some R
          /\ String.length R = 10
          /\ Py.slice 0 4 R = Py.slice 0 4 D
          /\ Py.slice 4 5 R = "-"
          /\ Py.slice 5 7 R = Py.slice 4 6 D
          /\ Py.slice 7 8 R = "-"
          /\ Py.slice 8 10 R = Py.slice 6 8 D)
  /\ (String.length D < 8 -> parse_hl7_date D = None).
Proof.
  split.
  - intros H.
    destruct (long_string_inv D H)
      as (c0 & c1 & c2 & c3 & c4 & c5 & c6 & c7 & rest & ->).
    split; [reflexivity|].
    eexists; split; [reflexivity|].
    destruct rest; cbn; repeat split; reflexivity.
  - intros H. unfold parse_hl7_date.
    apply Nat.ltb_lt in H. rewrite H. now rewrite orb_true_r.
Qed.

Lemma parse_hl7_date_spec_witness :
  parse_hl7_date "19801215120000" = Some "1980-12-15"
  /\ parse_hl7_date "1980121" = None
  /\ parse_hl7_date "" = None.
Proof.
  split; [|split].
  - exact (proj1 (proj1 (parse_hl7_date_spec "19801215120000")
                    ltac:(simpl; lia))).
  - exact (proj2 (parse_hl7_date_spec "1980121") ltac:(simpl; lia)).
  - exact (proj2 (parse_hl7_date_spec "") ltac:(simpl; lia)).
Defined.

(** ** Field access *)

Lemma truthy_false_inv (s : string) : Py.truthy s = false -> s = "".
Proof. destruct s; [reflexivity|discriminate]. Qed.

Lemma field_truth_nonempty (b : bool) (s : string) :
  s <> "" -> field_truth b s = true.
Proof. destruct s; [congruence|reflexivity]. Qed.

(** A field that fails the presence test has empty text, whether it is
    missing or empty. *)
Lemma has_field_false_str (b : bool) (segment : Segment) (i : nat) :
  has_field b segment i = false -> seg_str segment i = "".
Proof.
  unfold has_field, seg_str, seg_len, Py.item. intros H.
  apply andb_false_iff in H as [H|H].
  - apply Nat.ltb_ge in H. now apply nth_overflow.
  - unfold field_truth in H.
    destruct (Py.truthy (nth i (seg_fields segment) "")) eqn:E; [discriminate|].
    now apply truthy_false_inv.
Qed.

Lemma has_field_nonempty (b : bool) (segment : Segment) (i : nat) :
  seg_str segment i <> "" -> has_field b segment i = true.
Proof.
  intros H. unfold has_field. rewrite (field_truth_nonempty b _ H), andb_true_r.
  apply Nat.ltb_lt. unfold seg_str, Py.item, seg_len in *.
  destruct (Nat.lt_ge_cases i (length (seg_fields segment))) as [L|L]; [exact L|].
  exfalso. apply H. now apply nth_overflow.
Qed.

(** ** The gender mapping *)

Lemma dict_get_gender_map (gender_code : string) :
  dict_get gender_map gender_code "unknown" = gender_table gender_code.
Proof.
  unfold gender_table, gender_map, dict_get.
  rewrite (String.eqb_sym "M"), (String.eqb_sym "F"),
          (String.eqb_sym "O"), (String.eqb_sym "U").
  reflexivity.
Qed.

Ltac all_chars c :=
  destruct c as [[] [] [] [] [] [] [] []]; vm_compute; intros H;
  try discriminate H; auto.

Lemma upper_char_M c : Py.upper_char c = "M"%char -> c = "M"%char \/ c = "m"%char.
Proof. all_chars c. Qed.

Lemma upper_char_F c : Py.upper_char c = "F"%char -> c = "F"%char \/ c = "f"%char.
Proof. all_chars c. Qed.

Lemma upper_char_O c : Py.upper_char c = "O"%char -> c = "O"%char \/ c = "o"%char.
Proof. all_chars c. Qed.

Lemma upper_one_char (s : string) (k : ascii) :
  Py.upper s = String k "" ->
  exists c, s = String c "" /\ Py.upper_char c = k.
Proof.
  destruct s as [|c [|d rest]]; simpl; try discriminate.
  intros H. injection H as H. now exists c.
Qed.

Lemma gender_table_male (s : string) :
  gender_table (Py.upper s) = "male" <-> s = "M" \/ s = "m".
Proof.
  split.
  - unfold gender_table.
    destruct (String.eqb_spec (Py.upper s) "M") as [E|_].
    + intros _. apply upper_one_char in E as (c & -> & E).
      destruct (upper_char_M c E) as [->| ->]; auto.
    + repeat match goal with |- context [String.eqb ?a ?b] =>
               destruct (String.eqb a b) end; discriminate.
  - intros [->| ->]; reflexivity.
Qed.

Lemma gender_table_female (s : string) :
  gender_table (Py.upper s) = "female" <-> s = "F" \/ s = "f".
Proof.
  split.
  - unfold gender_table.
    destruct (String.eqb_spec (Py.upper s) "M") as [_|_]; [discriminate|].
    destruct (String.eqb_spec (Py.upper s) "F") as [E|_].
    + intros _. apply upper_one_char in E as (c & -> & E).
      destruct (upper_char_F c E) as [->| ->]; auto.
    + repeat match goal with |- context [String.eqb ?a ?b] =>
               destruct (String.eqb a b) end; discriminate.
  - intros [->| ->]; reflexivity.
Qed.

Lemma gender_table_other (s : string) :
  gender_table (Py.upper s) = "other" <-> s = "O" \/ s = "o".
Proof.
  split.
  - unfold gender_table.
    destruct (String.eqb_spec (Py.upper s) "M") as [_|_]; [discriminate|].
    destruct (String.eqb_spec (Py.upper s) "F") as [_|_]; [discriminate|].
    destruct (String.eqb_spec (Py.upper s) "O") as [E|_].
    + intros _. apply upper_one_char in E as (c & -> & E).
      destruct (upper_char_O c E) as [->| ->]; auto.
    + repeat match goal with |- context [String.eqb ?a ?b] =>
               destruct (String.eqb a b) end; discriminate.
  - intros [->| ->]; reflexivity.
Qed.

Lemma gender_table_range (gender_code : string) :
  In (gender_table gender_code) ["male"; "female"; "other"; "unknown"].
Proof.
  unfold gender_table.
  repeat match goal with |- context [String.eqb ?a ?b] =>
           destruct (String.eqb a b) end; simpl; auto.
Qed.

(** The gender that [pid_to_fhir_patient] computes depends on the text of
    field 8 only (empty when the field is missing). *)
Lemma pid_gender (b : bool) (pid_segment : Segment) :
  gender (pid_to_fhir_patient b pid_segment)
  = gender_table (Py.upper (seg_str pid_segment 8)).
Proof.
  unfold pid_to_fhir_patient. cbn [gender].
  destruct (has_field b pid_segment 8) eqn:E.
  - apply dict_get_gender_map.
  - now rewrite (has_field_false_str _ _ _ E).
Qed.

(** C8. The gender of the Patient is a total function of PID field 8: the
    upper-cased text is looked up in the table M, F, O, U and anything else,
    a missing or empty field included, gives "unknown".  The result is one
    of the four values, and upper and lower case codes give the same
    answer. *)
Theorem gender_mapping_total (b : bool) :
  (forall pid_segment : Segment,
     let g := gender (pid_to_fhir_patient b pid_segment) in
     let s := seg_str pid_segment 8 in
     g = gender_table (Py.upper s)
     /\ In g ["male"; "female"; "other"; "unknown"]
     /\ (g = "male" <-> s = "M" \/ s = "m")
     /\ (g = "female" <-> s = "F" \/ s = "f")
     /\ (g = "other" <-> s = "O" \/ s = "o"))
  /\ gender (pid_to_fhir_patient b (pid_with_sex (Some "m"))) = "male"
  /\ gender (pid_to_fhir_patient b (pid_with_sex (Some "F"))) = "female"
  /\ gender (pid_to_fhir_patient b (pid_with_sex (Some "o"))) = "other"
  /\ gender (pid_to_fhir_patient b (pid_with_sex (Some "x"))) = "unknown"
  /\ gender (pid_to_fhir_patient b (pid_with_sex (Some ""))) = "unknown"
  /\ gender (pid_to_fhir_patient b (pid_with_sex None)) = "unknown".
Proof.
  split.
  - intros pid_segment g s. subst g s. rewrite pid_gender.
    split; [reflexivity|]. split; [apply gender_table_range|].
    split; [apply gender_table_male|].
    split; [apply gender_table_female|apply gender_table_other].
  - repeat split; rewrite pid_gender; reflexivity.
Qed.

(** ** The generator's date conversion *)

Lemma format_date_three (date_str month day year : string) :
  Py.split "/" date_str = [month; day; year] ->
  Hl7Generator.format_date_for_hl7 date_str
  = inr (year ++ Py.zfill 2 month ++ Py.zfill 2 day).
Proof. unfold Hl7Generator.format_date_for_hl7. now intros ->. Qed.

Lemma format_date_other (date_str : string) :
  length (Py.split "/" date_str) <> 3 ->
  Hl7Generator.format_date_for_hl7 date_str = inl (invalid_date date_str).
Proof.
  unfold Hl7Generator.format_date_for_hl7. intros H.
  destruct (Py.split "/" date_str) as [|a [|b [|c [|d rest]]]];
    simpl in H; try reflexivity.
  now elim H.
Qed.

(** C9. [format_date_for_hl7] cuts its argument at every '/'.  With exactly
    three parts (that is, exactly two '/') it returns the third part followed
    by the first and the second, each filled with zeros to two characters;
    with any other number of parts it raises the invalid-date-format error
    (a [ValueError] in the code), and so does [generate_hl7_adt_message] for
    such a date of birth, whatever its other arguments. *)
Theorem format_date_for_hl7_spec (date_str : string) :
  (forall month day year,
      Py.split "/" date_str = [month; day; year] ->
      Hl7Generator.format_date_for_hl7 date_str
      = inr (year ++ Py.zfill 2 month ++ Py.zfill 2 day))
  /\ ((exists r, Hl7Generator.format_date_for_hl7 date_str = inr r)
      <-> length (Py.split "/" date_str) = 3)
  /\ (length (Py.split "/" date_str) = 3 <-> count_char "/" date_str = 2)
  /\ (length (Py.split "/" date_str) <> 3 ->
      Hl7Generator.format_date_for_hl7 date_str = inl (invalid_date date_str)
      /\ forall now mrn last_name first_name gender
                insurance_name member_id plan group_number,
           Hl7Generator.generate_hl7_adt_message now mrn last_name first_name
             date_str gender insurance_name member_id plan group_number
           = inl (invalid_date date_str)).
Proof.
  split; [|split; [|split]].
  - intros month day year. apply format_date_three.
  - split.
    + intros [r Hr].
      destruct (Nat.eq_dec (length (Py.split "/" date_str)) 3) as [E|E];
        [exact E|].
      rewrite (format_date_other _ E) in Hr. discriminate.
    + intros H.
      destruct (Py.split "/" date_str) as [|a [|b [|c [|d rest]]]] eqn:E;
        try discriminate H.
      exists (c ++ Py.zfill 2 a ++ Py.zfill 2 b).
      exact (format_date_three _ _ _ _ E).
  - rewrite split_length. lia.
  - intros H. split; [now apply format_date_other|].
    intros. unfold Hl7Generator.generate_hl7_adt_message, Hl7Generator.segments_of.
    rewrite (format_date_other _ H). reflexivity.
Qed.

Lemma format_date_for_hl7_spec_witness :
  Hl7Generator.format_date_for_hl7 "12/15/1980" = inr "19801215"
  /\ Hl7Generator.format_date_for_hl7 "1/5/1980" = inr "19800105"
  /\ Hl7Generator.format_date_for_hl7 "1980-12-15"
     = inl (ValueError "Invalid date format. Expected MM/DD/YYYY, got 1980-12-15")
  /\ Hl7Generator.generate_hl7_adt_message
       {| dt_year := 2023; dt_month := 10; dt_day := 31;
          dt_hour := 12; dt_minute := 0; dt_second := 0 |}
       (Some "MRN1") "Smith" "John" "1980-12-15" "Male" None None None None
     = inl (ValueError "Invalid date format. Expected MM/DD/YYYY, got 1980-12-15").
Proof.
  split; [|split; [|split]].
  - exact (proj1 (format_date_for_hl7_spec "12/15/1980") "12" "15" "1980" eq_refl).
  - exact (proj1 (format_date_for_hl7_spec "1/5/1980") "1" "5" "1980" eq_refl).
  - refine (proj1 (proj2 (proj2 (proj2 (format_date_for_hl7_spec "1980-12-15"))) _)).
    simpl. lia.
  - refine (proj2 (proj2 (proj2 (proj2 (format_date_for_hl7_spec "1980-12-15"))) _)
              _ _ _ _ _ _ _ _ _).
    simpl. lia.
Defined.

(** ** The two generators *)

Lemma truthy_opt_some (s : string) : s <> "" -> Py.truthy_opt (Some s) = true.
Proof. destruct s; [congruence|reflexivity]. Qed.

Lemma or_empty_some (s : string) : Py.or_empty (Some s) = s.
Proof. destruct s; reflexivity. Qed.

Lemma patient_service_format_date (date_str : string) :
  length (Py.split "/" date_str) = 3 ->
  PatientService.format_date_for_hl7 date_str
  = Hl7Generator.format_date_for_hl7 date_str.
Proof.
  unfold PatientService.format_date_for_hl7, Hl7Generator.format_date_for_hl7.
  intros H.
  destruct (Py.split "/" date_str) as [|a [|b [|c [|d rest]]]];
    try discriminate H.
  reflexivity.
Qed.

(** C10. On their common domain the two generators return the same text:
    with the same clock reading, a date of birth of three '/'-separated
    parts, and either no insurance or an insurance whose name, member id,
    plan and group number are all non-empty, [generate_hl7_adt_message] and
    [generate_hl7_message] succeed with the same message (this holds whether
    or not an MRN is supplied, since both synthesize it from the clock in
    the same way). *)
Theorem generators_agree
    (now : datetime) (mrn : option string)
    (last_name first_name dob gender : string)
    (ins : option PatientService.InsuranceInfo) :
  length (Py.split "/" dob) = 3 ->
  (forall i, ins = Some i ->
     PatientService.name i <> "" /\ PatientService.memberID i <> ""
     /\ PatientService.plan i <> "" /\ PatientService.groupNumber i <> "") ->
  exists message,
    Hl7Generator.generate_hl7_adt_message now mrn last_name first_name dob gender
      (option_map PatientService.name ins)
      (option_map PatientService.memberID ins)
      (option_map PatientService.plan ins)
      (option_map PatientService.groupNumber ins)
    = inr message
    /\ PatientService.generate_hl7_message now
         {| PatientService.mrn := mrn;
            PatientService.lastName := last_name;
            PatientService.firstName := first_name;
            PatientService.dob := dob;
            PatientService.gender := gender;
            PatientService.insurance := ins |}
       = inr message.
Proof.
  intros Hdob Hins.
  unfold Hl7Generator.generate_hl7_adt_message, Hl7Generator.segments_of,
         PatientService.generate_hl7_message.
  cbn [PatientService.mrn PatientService.lastName PatientService.firstName
       PatientService.dob PatientService.gender PatientService.insurance].
  rewrite (patient_service_format_date _ Hdob).
  destruct (Py.split "/" dob) as [|m [|d [|y [|e rest]]]] eqn:E;
    try discriminate Hdob.
  rewrite (format_date_three _ _ _ _ E). cbn [bind].
  destruct ins as [i|]; cbn [option_map].
  - destruct (Hins i eq_refl) as (Hn & Hm & Hp & Hg).
    unfold Hl7Generator.in1_parts.
    rewrite !truthy_opt_some by assumption.
    rewrite !or_empty_some. cbn [andb str_of].
    eexists; split; [reflexivity|].
    destruct (Py.truthy_opt mrn); reflexivity.
  - cbn [Py.truthy_opt andb].
    eexists; split; [reflexivity|].
    destruct (Py.truthy_opt mrn); reflexivity.
Qed.

Lemma generators_agree_witness :
  exists message,
    Hl7Generator.generate_hl7_adt_message
      {| dt_year := 2023; dt_month := 10; dt_day := 31;
         dt_hour := 12; dt_minute := 0; dt_second := 0 |}
      (Some "MRN1") "Smith" "John" "12/15/1980" "Male"
      (Some "BlueCross") (Some "PPO123") (Some "Gold") (Some "GRP1")
    = inr message
    /\ PatientService.generate_hl7_message
         {| dt_year := 2023; dt_month := 10; dt_day := 31;
            dt_hour := 12; dt_minute := 0; dt_second := 0 |}
         {| PatientService.mrn := Some "MRN1";
            PatientService.lastName := "Smith";
            PatientService.firstName := "John";
            PatientService.dob := "12/15/1980";
            PatientService.gender := "Male";
            PatientService.insurance :=
              Some {| PatientService.name := "BlueCross";
                      PatientService.memberID := "PPO123";
                      PatientService.plan := "Gold";
                      PatientService.groupNumber := "GRP1" |} |}
       = inr message.
Proof.
  apply (generators_agree _ (Some "MRN1") "Smith" "John" "12/15/1980" "Male"
           (Some {| PatientService.name := "BlueCross";
                    PatientService.memberID := "PPO123";
                    PatientService.plan := "Gold";
                    PatientService.groupNumber := "GRP1" |})).
  - reflexivity.
  - intros i E. injection E as <-. cbn. repeat split; discriminate.
Defined.

(** ** The segment scan *)

Lemma find_app {A : Type} (f : A -> bool) (xs ys : list A) :
  find f (xs ++ ys)%list
  = match find f xs with
    | Some x => Some x
    | None => find f ys
    end.
Proof.
  induction xs as [|x xs IH]; simpl; [reflexivity|].
  destruct (f x); [reflexivity|exact IH].
Qed.

Lemma last_segment_cons (ty : string) (segment : Segment) (message : Message) :
  last_segment ty (segment :: message)
  = later (if is_type ty segment then Some segment else None)
          (last_segment ty message).
Proof.
  unfold last_segment, later. simpl. rewrite find_app. simpl.
  destruct (find (is_type ty) (List.rev message)); [reflexivity|].
  destruct (is_type ty segment); reflexivity.
Qed.

Lemma scan_from (message : Message) (pid in1 : option Segment) :
  fold_left scan_step message (pid, in1)
  = (later pid (last_segment "PID" message),
     later in1 (last_segment "IN1" message)).
Proof.
  revert pid in1.
  induction message as [|segment message IH]; intros pid in1.
  - reflexivity.
  - simpl fold_left. unfold scan_step at 2. cbn [fst snd].
    rewrite !last_segment_cons. unfold is_type.
    destruct (String.eqb_spec (seg_str segment 0) "PID") as [E|E].
    + rewrite IH, E. cbn [String.eqb Ascii.eqb Bool.eqb].
      destruct (last_segment "PID" message), (last_segment "IN1" message);
        reflexivity.
    + destruct (String.eqb (seg_str segment 0) "IN1"); rewrite IH;
        destruct (last_segment "PID" message), (last_segment "IN1" message);
        reflexivity.
Qed.

Lemma scan_last (message : Message) :
  scan message = (last_segment "PID" message, last_segment "IN1" message).
Proof.
  unfold scan. rewrite scan_from.
  destruct (last_segment "PID" message), (last_segment "IN1" message);
    reflexivity.
Qed.

Lemma convert_message_last (b : bool) (message : Message) :
  convert_message b message
  = assemble b (last_segment "PID" message) (last_segment "IN1" message).
Proof. unfold convert_message. now rewrite scan_last. Qed.

Lemma has_segment_rev (ty : string) (message : Message) :
  has_segment ty (List.rev message) = has_segment ty message.
Proof.
  unfold has_segment.
  induction message as [|s message IH]; simpl; [reflexivity|].
  rewrite existsb_app, IH. simpl. now rewrite orb_false_r, orb_comm.
Qed.

Lemma find_existsb {A : Type} (f : A -> bool) (xs : list A) :
  existsb f xs = match find f xs with Some _ => true | None => false end.
Proof.
  induction xs as [|x xs IH]; simpl; [reflexivity|].
  destruct (f x); [reflexivity|exact IH].
Qed.

Lemma last_segment_has (ty : string) (message : Message) :
  has_segment ty message
  = match last_segment ty message with Some _ => true | None => false end.
Proof.
  rewrite <- has_segment_rev. unfold has_segment, last_segment.
  apply find_existsb.
Qed.

(** [last_segment] picks a segment of the type that no segment of the type
    follows. *)
Lemma last_segment_split (ty : string) (message : Message) (segment : Segment) :
  last_segment ty message = Some segment <->
  exists before after,
    message = (before ++ segment :: after)%list
    /\ is_type ty segment = true
    /\ has_segment ty after = false.
Proof.
  split.
  - revert segment.
    induction message as [|s message IH]; intros segment.
    + discriminate.
    + rewrite last_segment_cons. unfold later.
      destruct (last_segment ty message) as [l|] eqn:E.
      * intros H. injection H as <-.
        destruct (IH l eq_refl) as (before & after & -> & Ht & Ha).
        now exists (s :: before), after.
      * destruct (is_type ty s) eqn:Es; [|discriminate].
        intros H. injection H as <-.
        exists [], message. repeat split; [exact Es|].
        rewrite last_segment_has. now rewrite E.
  - intros (before & after & -> & Ht & Ha).
    induction before as [|s before IH]; simpl.
    + rewrite last_segment_cons, Ht.
      rewrite last_segment_has in Ha.
      now destruct (last_segment ty after).
    + rewrite last_segment_cons. now rewrite IH.
Qed.

(** ** Which segments the assembler uses *)

(** C3, refuted as stated.  On a message with two PID and two IN1 segments
    the result is not the one assembled from the first PID and the first IN1:
    it carries the identifier of the second PID and the subscriber of the
    second IN1. *)
Lemma first_segments_not_used :
  exists message first_pid first_in1,
    parse_hl7_message duplicates_text = inr message
    /\ first_segment "PID" message = Some first_pid
    /\ first_segment "IN1" message = Some first_in1
    /\ result_ids (inr (assemble true (Some first_pid) (Some first_in1)))
       = Some (["FIRST"], Some "SUB1")
    /\ result_ids (convert_hl7_to_fhir true duplicates_text)
       = Some (["SECOND"], Some "SUB2")
    /\ convert_hl7_to_fhir true duplicates_text
       <> inr (assemble true (Some first_pid) (Some first_in1))
    /\ convert_hl7_to_fhir false duplicates_text
       <> inr (assemble false (Some first_pid) (Some first_in1)).
Proof.
  eexists; eexists; eexists.
  split; [vm_compute; reflexivity|].
  split; [vm_compute; reflexivity|].
  split; [vm_compute; reflexivity|].
  split; [vm_compute; reflexivity|].
  split; [vm_compute; reflexivity|].
  split; vm_compute; intros H; discriminate H.
Qed.

(** C3, amended.  [convert_hl7_to_fhir] assembles its result from the last
    PID segment and the last IN1 segment of the message: the segment of that
    type which no segment of the type follows.  Segments of the same type
    that come earlier have no effect on the result. *)
Theorem convert_uses_last_segments (b : bool) :
  (forall hl7_message : string,
     convert_hl7_to_fhir b hl7_message
     = (message <- parse_hl7_message hl7_message ;;
        ret (assemble b (last_segment "PID" message)
                        (last_segment "IN1" message))))
  /\ (forall (ty : string) (message : Message) (segment : Segment),
        last_segment ty message = Some segment <->
        exists before after,
          message = (before ++ segment :: after)%list
          /\ is_type ty segment = true
          /\ has_segment ty after = false)
  /\ (forall (before after : Message) (pid : Segment),
        is_type "PID" pid = true ->
        has_segment "PID" after = false ->
        patient (convert_message b (before ++ pid :: after)%list)
        = Some (pid_to_fhir_patient b pid))
  /\ (forall (before after : Message) (in1 : Segment) (p : Patient),
        is_type "IN1" in1 = true ->
        has_segment "IN1" after = false ->
        patient (convert_message b (before ++ in1 :: after)%list) = Some p ->
        coverage (convert_message b (before ++ in1 :: after)%list)
        = Some (in1_to_fhir_coverage b in1 ("Patient/" ++ patient_id p))).
Proof.
  split; [|split; [|split]].
  - intros hl7_message. unfold convert_hl7_to_fhir.
    destruct (parse_hl7_message hl7_message) as [e|message]; [reflexivity|].
    cbn [bind]. now rewrite convert_message_last.
  - apply last_segment_split.
  - intros before after pid Hp Ha.
    rewrite convert_message_last.
    assert (P : last_segment "PID" (before ++ pid :: after)%list = Some pid).
    { apply last_segment_split. now exists before, after. }
    rewrite P. unfold assemble.
    now destruct (last_segment "IN1" (before ++ pid :: after)%list).
  - intros before after in1 p Hi Ha.
    rewrite convert_message_last.
    assert (I : last_segment "IN1" (before ++ in1 :: after)%list = Some in1).
    { apply last_segment_split. now exists before, after. }
    rewrite I. unfold assemble.
    destruct (last_segment "PID" (before ++ in1 :: after)%list);
      cbn [patient coverage]; [|discriminate].
    intros H. injection H as <-. reflexivity.
Qed.

Lemma convert_uses_last_segments_witness :
  patient (convert_message true
             ([segment_of_fields ["MSH"; "^~\&"];
               segment_of_fields ["PID"; "1"; ""; "FIRST"]]
              ++ segment_of_fields ["PID"; "1"; ""; "SECOND"]
                 :: [segment_of_fields ["IN1"; "1"; "SUB2"]])%list)
  = Some (pid_to_fhir_patient true (segment_of_fields ["PID"; "1"; ""; "SECOND"])).
Proof.
  apply (proj1 (proj2 (proj2 (convert_uses_last_segments true))));
    reflexivity.
Defined.

(** ** Which resources are produced *)

Lemma assemble_patient (b : bool) (pid in1 : option Segment) :
  patient (assemble b pid in1) = option_map (pid_to_fhir_patient b) pid.
Proof. destruct pid, in1; reflexivity. Qed.

Lemma assemble_coverage (b : bool) (pid in1 : option Segment) :
  coverage (assemble b pid in1)
  = match pid, in1 with
    | Some p, Some i =>
        Some (in1_to_fhir_coverage b i
                ("Patient/" ++ patient_id (pid_to_fhir_patient b p)))
    | _, _ => None
    end.
Proof. destruct pid, in1; reflexivity. Qed.

Lemma in1_reference (b : bool) (in1 : Segment) (patient_reference : string) :
  reference (beneficiary (in1_to_fhir_coverage b in1 patient_reference))
  = patient_reference.
Proof. reflexivity. Qed.

(** C4. For every message that parses, [convert_hl7_to_fhir] returns a
    record in which the Patient is present iff the message has a PID segment
    and the Coverage is present iff it has both a PID and an IN1 segment.  A
    Coverage comes with a Patient, and its beneficiary reference is
    "Patient/" followed by the value of the Patient's first identifier, or by
    "temp" when the Patient has none.  Without IN1 segment the coverage entry
    of the record is [None], not a Coverage without content. *)
Theorem resources_produced (b : bool) (hl7_message : string) (message : Message) :
  parse_hl7_message hl7_message = inr message ->
  exists r,
    convert_hl7_to_fhir b hl7_message = inr r
    /\ ((exists p, patient r = Some p) <-> has_segment "PID" message = true)
    /\ ((exists c, coverage r = Some c)
        <-> has_segment "PID" message = true /\ has_segment "IN1" message = true)
    /\ (forall c, coverage r = Some c ->
          exists p, patient r = Some p
            /\ reference (beneficiary c)
               = "Patient/" ++ match identifier p with
                               | i :: _ => value i
                               | [] => "temp"
                               end)
    /\ (has_segment "IN1" message = false -> coverage r = None)
    /\ (has_segment "PID" message = false ->
          patient r = None /\ coverage r = None).
Proof.
  intros Hparse. unfold convert_hl7_to_fhir. rewrite Hparse. cbn [bind].
  eexists; split; [reflexivity|].
  rewrite convert_message_last, assemble_patient, assemble_coverage.
  rewrite !last_segment_has.
  destruct (last_segment "PID" message) as [pid|],
           (last_segment "IN1" message) as [in1|]; cbn [option_map].
  all: repeat split; intros;
    repeat match goal with
           | H : exists _, _ |- _ => destruct H
           | H : _ /\ _ |- _ => destruct H
           end;
    try discriminate; eauto.
  match goal with H : Some _ = Some _ |- _ => injection H as <- end.
  eexists; split; [reflexivity|]. apply in1_reference.
Qed.

Lemma resources_produced_witness :
  exists message,
    parse_hl7_message no_identifier_text = inr message
    /\ exists r,
      convert_hl7_to_fhir true no_identifier_text = inr r
      /\ ((exists p, patient r = Some p) <-> has_segment "PID" message = true)
      /\ ((exists c, coverage r = Some c)
          <-> has_segment "PID" message = true
              /\ has_segment "IN1" message = true)
      /\ (forall c, coverage r = Some c ->
            exists p, patient r = Some p
              /\ reference (beneficiary c)
                 = "Patient/" ++ match identifier p with
                                 | i :: _ => value i
                                 | [] => "temp"
                                 end)
      /\ (has_segment "IN1" message = false -> coverage r = None)
      /\ (has_segment "PID" message = false ->
            patient r = None /\ coverage r = None).
Proof.
  eexists. split; [vm_compute; reflexivity|].
  apply (resources_produced true no_identifier_text). vm_compute; reflexivity.
Defined.

(** The three shapes of result on concrete messages. *)
Example no_identifier_result (b : bool) :
  option_map (fun c => reference (beneficiary c))
    (match convert_hl7_to_fhir b no_identifier_text with
     | inr r => coverage r
     | inl _ => None
     end)
  = Some "Patient/temp".
Proof. destruct b; vm_compute; reflexivity. Qed.

Example no_insurance_result (b : bool) :
  exists p, convert_hl7_to_fhir b no_insurance_text
            = inr {| patient := Some p; coverage := None |}.
Proof. destruct b; eexists; vm_compute; reflexivity. Qed.

Example no_patient_result (b : bool) :
  convert_hl7_to_fhir b no_patient_text
  = inr {| patient := None; coverage := None |}.
Proof. destruct b; vm_compute; reflexivity. Qed.

(** ** Parsing a message behind a header with unknown content *)

Lemma prefix_contains (c : ascii) (old s : string) :
  Py.contains c old = true -> prefix old s = true -> Py.contains c s = true.
Proof.
  revert s. induction old as [|a old IH]; intros s Hc Hp; [discriminate|].
  destruct s as [|d s]; simpl in Hp; [discriminate|].
  destruct (ascii_dec a d) as [->|]; [|discriminate].
  simpl in *. destruct (Ascii.eqb d c); [reflexivity|].
  simpl in *. now apply IH.
Qed.

(** Replacing a text that cannot occur changes nothing. *)
Lemma replace_absent (c : ascii) (old new s : string) :
  Py.contains c old = true -> Py.contains c s = false ->
  Py.replace old new s = s.
Proof.
  intros Hold. unfold Py.replace.
  induction s as [|d s IH]; intros Hs; [reflexivity|].
  cbn [Py.replace_from].
  destruct (prefix old (String d s)) eqn:P.
  - rewrite (prefix_contains c old _ Hold P) in Hs. discriminate.
  - simpl in Hs. apply orb_false_iff in Hs as [_ Hs]. now rewrite IH.
Qed.

Lemma app_not_empty (a b : string) : b <> "" -> a ++ b <> "".
Proof. destruct a; simpl; [auto|discriminate]. Qed.

Lemma rstrip_app (a b : string) :
  Py.rstrip b <> "" -> Py.rstrip (a ++ b) = a ++ Py.rstrip b.
Proof.
  intros H. induction a as [|c a IH]; [reflexivity|].
  simpl. rewrite IH.
  pose proof (app_not_empty a _ H) as N.
  destruct (a ++ Py.rstrip b); [congruence|reflexivity].
Qed.

Lemma split_app_sep (sep : ascii) (a b : string) :
  Py.contains sep a = false ->
  Py.split sep (a ++ String sep b) = a :: Py.split sep b.
Proof.
  induction a as [|c a IH]; intros H.
  - simpl. now rewrite Ascii.eqb_refl.
  - simpl in H. apply orb_false_iff in H as [Hc Ha].
    simpl. rewrite Hc, (IH Ha). reflexivity.
Qed.

Lemma header_type (body : string) :
  seg_str (parse_segment "|" ("MSH|" ++ body)) 0 = "MSH".
Proof.
  unfold parse_segment. cbn.
  destruct (Py.split "|" body) eqn:E; [now apply split_nonempty in E|].
  reflexivity.
Qed.

Lemma last_segment_skip (ty : string) (segment : Segment) (message : Message) :
  is_type ty segment = false ->
  last_segment ty (segment :: message) = last_segment ty message.
Proof.
  intros H. rewrite last_segment_cons, H.
  now destruct (last_segment ty message).
Qed.

(** A message made of a header segment without line ends and of a rest that
    has no line feed and does not end in whitespace is converted as its
    rest is: the content of the header plays no role. *)
Lemma convert_with_header (b : bool) (body rest : string) :
  Py.contains Py.CR body = false ->
  Py.contains Py.LF body = false ->
  Py.contains Py.LF rest = false ->
  Py.rstrip rest = rest ->
  rest <> "" ->
  convert_hl7_to_fhir b (("MSH|" ++ body) ++ CRs ++ rest)
  = inr (convert_message b (map (parse_segment "|") (Py.split Py.CR rest))).
Proof.
  intros Hcr Hlf Hrest Hstrip Hne.
  assert (NoLF : Py.contains Py.LF (("MSH|" ++ body) ++ CRs ++ rest) = false).
  { rewrite !contains_app, Hlf, Hrest. reflexivity. }
  unfold convert_hl7_to_fhir, parse_hl7_message.
  rewrite (replace_absent Py.LF (CRs ++ LFs) CRs _ eq_refl NoLF).
  rewrite (replace_absent Py.LF LFs CRs _ eq_refl NoLF).
  unfold hl7_parse, Py.strip.
  change (Py.lstrip (("MSH|" ++ body) ++ CRs ++ rest))
    with (("MSH|" ++ body) ++ CRs ++ rest).
  rewrite <- app_assoc_str, rstrip_app, Hstrip by (rewrite Hstrip; exact Hne).
  rewrite app_assoc_str.
  change (Py.truthy (("MSH|" ++ body) ++ CRs ++ rest)) with true.
  change (field_separator (("MSH|" ++ body) ++ CRs ++ rest)) with "|"%char.
  cbn [negb bind raise ret].
  unfold CRs at 1. change (String Py.CR "" ++ rest) with (String Py.CR rest).
  rewrite split_app_sep by (simpl; exact Hcr).
  cbn [map]. rewrite convert_message_last.
  rewrite !last_segment_skip
    by (unfold is_type; now rewrite header_type).
  now rewrite <- convert_message_last.
Qed.

(** ** The timestamp *)

Lemma all_digits_app (a b : string) :
  all_digits (a ++ b) = all_digits a && all_digits b.
Proof.
  induction a as [|c a IH]; simpl; [reflexivity|].
  now rewrite IH, andb_assoc.
Qed.

Lemma all_digits_zeros (n : nat) : all_digits (Py.zeros n) = true.
Proof. induction n as [|n IH]; simpl; [reflexivity|exact IH]. Qed.

Lemma all_digits_uint (u : Decimal.uint) :
  all_digits (NilEmpty.string_of_uint u) = true.
Proof. induction u; simpl; auto. Qed.

Lemma all_digits_padded (width n : nat) : all_digits (padded width n) = true.
Proof.
  unfold padded, decimal.
  now rewrite all_digits_app, all_digits_zeros, all_digits_uint.
Qed.

Lemma all_digits_strftime (now : datetime) :
  all_digits (strftime_YmdHMS now) = true.
Proof.
  unfold strftime_YmdHMS.
  now rewrite !all_digits_app, !all_digits_padded.
Qed.

Lemma digits_exclude (c : ascii) (s : string) :
  is_digit c = false -> all_digits s = true -> Py.contains c s = false.
Proof.
  intros Hc. induction s as [|d s IH]; simpl; [reflexivity|].
  intros H. apply andb_true_iff in H as [Hd Hs].
  rewrite (IH Hs), orb_false_r.
  destruct (Ascii.eqb_spec d c) as [->|]; [congruence|reflexivity].
Qed.

Lemma strftime_no_CR (now : datetime) :
  Py.contains Py.CR (strftime_YmdHMS now) = false.
Proof. apply digits_exclude; [reflexivity|apply all_digits_strftime]. Qed.

Lemma strftime_no_LF (now : datetime) :
  Py.contains Py.LF (strftime_YmdHMS now) = false.
Proof. apply digits_exclude; [reflexivity|apply all_digits_strftime]. Qed.

Lemma header_body_no_CR (now : datetime) :
  Py.contains Py.CR (header_body (strftime_YmdHMS now)) = false.
Proof.
  unfold header_body. now rewrite !contains_app, !strftime_no_CR.
Qed.

Lemma header_body_no_LF (now : datetime) :
  Py.contains Py.LF (header_body (strftime_YmdHMS now)) = false.
Proof.
  unfold header_body. now rewrite !contains_app, !strftime_no_LF.
Qed.

(** ** Round trip of the patient fields *)

(** C2. Whatever the clock reads, the message generated for MRN "MRN1",
    last name "Smith", first name "John", date of birth "12/15/1980" and
    gender "Male" without insurance converts to a Patient whose only
    identifier has value "MRN1", whose only name is family "Smith" with given
    names ["John"], whose birth date is "1980-12-15" and whose gender is
    "male"; no Coverage comes with it. *)
Theorem round_trip_patient (b : bool) (now : datetime) :
  exists text,
    Hl7Generator.generate_hl7_adt_message now (Some "MRN1") "Smith" "John"
      "12/15/1980" "Male" None None None None = inr text
    /\ convert_hl7_to_fhir b text
       = inr {| patient := Some patient_MRN1; coverage := None |}.
Proof.
  exists (("MSH|" ++ header_body (strftime_YmdHMS now)) ++ CRs
          ++ "PID|1||MRN1^^^MRN||Smith^John||19801215|M").
  split; [reflexivity|].
  rewrite convert_with_header.
  - destruct b; vm_compute; reflexivity.
  - apply header_body_no_CR.
  - apply header_body_no_LF.
  - reflexivity.
  - reflexivity.
  - discriminate.
Qed.

(** ** The accepted test scenario *)

(** C1. A message made of a header, a PID segment with "MRN123456^^^MRN" in
    field 3, "Smith^John^A" in field 5, "19801215" in field 7 and "M" in
    field 8, and an IN1 segment with "PPO123" in field 2, "BlueCross
    BlueShield" in field 4, "GRP456789" in field 8 and "Gold Plan PPO" in
    field 9 converts to the Patient with identifier value "MRN123456", the
    single name Smith / John, A, gender "male" and birth date "1980-12-15",
    and to the Coverage with subscriber "PPO123", payor "BlueCross
    BlueShield", a group class "GRP456789" followed by a plan class of value
    and name "Gold Plan PPO", and beneficiary "Patient/MRN123456". *)
Theorem accepted_message_conversion
    (b : bool) (hl7_message : string) (msh pid in1 : Segment) :
  parse_hl7_message hl7_message = inr [msh; pid; in1] ->
  seg_str msh 0 = "MSH" ->
  seg_str pid 0 = "PID" ->
  seg_str pid 3 = "MRN123456^^^MRN" ->
  seg_str pid 5 = "Smith^John^A" ->
  seg_str pid 7 = "19801215" ->
  seg_str pid 8 = "M" ->
  seg_str in1 0 = "IN1" ->
  seg_str in1 2 = "PPO123" ->
  seg_str in1 4 = "BlueCross BlueShield" ->
  seg_str in1 8 = "GRP456789" ->
  seg_str in1 9 = "Gold Plan PPO" ->
  convert_hl7_to_fhir b hl7_message
  = inr {| patient := Some patient_MRN123456;
           coverage := Some coverage_PPO123 |}.
Proof.
  intros Hparse Hmsh Hpid P3 P5 P7 P8 Hin1 I2 I4 I8 I9.
  unfold convert_hl7_to_fhir. rewrite Hparse. cbn [bind ret].
  unfold convert_message, scan. cbn [fold_left]. unfold scan_step.
  rewrite Hmsh, Hpid, Hin1. cbn [String.eqb Ascii.eqb Bool.eqb fst snd].
  unfold assemble, pid_to_fhir_patient, in1_to_fhir_coverage.
  rewrite !has_field_nonempty
    by (rewrite ?P3, ?P5, ?P7, ?P8, ?I2, ?I4, ?I8, ?I9; discriminate).
  rewrite P3, P5, P7, P8, I2, I4, I8, I9.
  reflexivity.
Qed.

Lemma accepted_message_conversion_witness :
  convert_hl7_to_fhir true scenario_text
  = inr {| patient := Some patient_MRN123456;
           coverage := Some coverage_PPO123 |}.
Proof.
  eapply (accepted_message_conversion true scenario_text);
    [vm_compute; reflexivity | reflexivity ..].
Defined.

(** On the message of [test_server.py] the Patient is the same, and the
    Coverage has no class entry: the converter looks for the group number
    and the plan in fields 8 and 9, which are empty there. *)
Example test_server_message_conversion (b : bool) :
  convert_hl7_to_fhir b test_server_text
  = inr {| patient := Some patient_MRN123456;
           coverage :=
             Some {| coverage_resourceType := "Coverage";
                     status := "active";
                     beneficiary := {| reference := "Patient/MRN123456" |};
                     payor := [ {| payor_display := "BlueCross BlueShield" |} ];
                     subscriberId := Some "PPO123";
                     class := None |} |}.
Proof. destruct b; vm_compute; reflexivity. Qed.

(** ** The insurance segment of the generator *)

(** C5, refuted as stated.  With an insurance name, a member id and a group
    number but no plan, the IN1 segment of the generated message has the ten
    fields 0 to 9 and no field 10: the absent plan is left out, not written
    as an empty field.  With a plan the segment has eleven fields. *)
Lemma absent_plan_is_omitted :
  third_segment_fields
    (Hl7Generator.generate_hl7_adt_message clock_2023 (Some "MRN1") "Smith"
       "John" "12/15/1980" "Male"
       (Some "BlueCross") (Some "PPO123") None (Some "GRP1"))
  = Some ["IN1"; "1"; "PPO123"; ""; "BlueCross"; ""; ""; ""; ""; "GRP1"]
  /\ third_segment_fields
       (Hl7Generator.generate_hl7_adt_message clock_2023 (Some "MRN1") "Smith"
          "John" "12/15/1980" "Male"
          (Some "BlueCross") (Some "PPO123") (Some "Gold") (Some "GRP1"))
     = Some ["IN1"; "1"; "PPO123"; ""; "BlueCross"; ""; ""; ""; ""; "GRP1"; "Gold"]
  /\ nth_error
       (Hl7Generator.in1_parts (Some "BlueCross") (Some "PPO123") None (Some "GRP1"))
       10
     <> Some "".
Proof.
  split; [vm_compute; reflexivity|].
  split; [vm_compute; reflexivity|].
  vm_compute. discriminate.
Qed.

Lemma truthy_opt_spec (o : option string) :
  Py.truthy_opt o = true <-> exists s, o = Some s /\ s <> "".
Proof.
  split.
  - destruct o as [[|c s]|]; try discriminate.
    intros _. eexists; split; [reflexivity|discriminate].
  - intros (s & -> & H). now apply truthy_opt_some.
Qed.

(** C5, amended.  [generate_hl7_adt_message] writes the header and the PID
    segment, and after them an IN1 segment iff the insurance name and the
    member id are both given and non-empty.  In that segment nine fields do
    not depend on group number and plan; the next field is the group number,
    written as an empty field when there is none; the plan, when given, is
    the last field, and when it is absent nothing is written for it.  The
    indices of all fields before the plan are therefore the same whether or
    not group number and plan are given. *)
Theorem in1_emission :
  (forall now mrn last_name first_name dob gender
          insurance_name member_id plan group_number hl7_dob,
     Hl7Generator.format_date_for_hl7 dob = inr hl7_dob ->
     exists msh pid,
       prefix "MSH|" msh = true /\ prefix "PID|" pid = true
       /\ Hl7Generator.segments_of now mrn last_name first_name dob gender
            insurance_name member_id plan group_number
          = inr ([msh; pid]
                 ++ (if Py.truthy_opt insurance_name && Py.truthy_opt member_id
                     then [Py.join "|" (Hl7Generator.in1_parts insurance_name
                                          member_id plan group_number)]
                     else []))%list
       /\ Hl7Generator.generate_hl7_adt_message now mrn last_name first_name
            dob gender insurance_name member_id plan group_number
          = inr (Py.join CRs
                   ([msh; pid]
                    ++ (if Py.truthy_opt insurance_name
                           && Py.truthy_opt member_id
                        then [Py.join "|" (Hl7Generator.in1_parts insurance_name
                                             member_id plan group_number)]
                        else []))%list))
  /\ (forall o : option string,
        Py.truthy_opt o = true <-> exists s, o = Some s /\ s <> "")
  /\ (forall insurance_name member_id plan group_number,
        let parts := Hl7Generator.in1_parts insurance_name member_id plan
                       group_number in
        prefix "IN1|" (Py.join "|" parts) = true
        /\ firstn 9 parts
           = ["IN1"; "1"; Py.or_empty member_id; ""; Py.or_empty insurance_name;
              ""; ""; ""; ""]
        /\ nth_error parts 9
           = Some (if Py.truthy_opt group_number then str_of group_number else "")
        /\ nth_error parts 10
           = (if Py.truthy_opt plan then Some (str_of plan) else None)
        /\ length parts = (if Py.truthy_opt plan then 11 else 10)
        /\ parts
           = (firstn 9 parts ++ [Py.or_empty group_number]
              ++ (if Py.truthy_opt plan then [str_of plan] else []))%list).
Proof.
  split; [|split].
  - intros now mrn last_name first_name dob gender
           insurance_name member_id plan group_number hl7_dob Hdob.
    unfold Hl7Generator.generate_hl7_adt_message, Hl7Generator.segments_of.
    rewrite Hdob. cbn [bind ret].
    eexists; eexists.
    split; [|split; [|split]].
    3: destruct (Py.truthy_opt insurance_name && Py.truthy_opt member_id);
       reflexivity.
    3: destruct (Py.truthy_opt insurance_name && Py.truthy_opt member_id);
       reflexivity.
    + reflexivity.
    + reflexivity.
  - apply truthy_opt_spec.
  - intros insurance_name member_id plan group_number parts. subst parts.
    unfold Hl7Generator.in1_parts.
    destruct group_number as [[|c g]|], plan as [[|d q]|];
      repeat split; reflexivity.
Qed.

Lemma in1_emission_witness :
  exists msh pid,
    prefix "MSH|" msh = true /\ prefix "PID|" pid = true
    /\ Hl7Generator.segments_of clock_2023 (Some "MRN1") "Smith" "John"
         "12/15/1980" "Male" (Some "BlueCross") (Some "PPO123") None None
       = inr [msh; pid; "IN1|1|PPO123||BlueCross|||||"]
    /\ Hl7Generator.generate_hl7_adt_message clock_2023 (Some "MRN1") "Smith"
         "John" "12/15/1980" "Male" (Some "BlueCross") (Some "PPO123") None None
       = inr (Py.join CRs [msh; pid; "IN1|1|PPO123||BlueCross|||||"]).
Proof.
  exact (proj1 in1_emission clock_2023 (Some "MRN1") "Smith" "John"
           "12/15/1980" "Male" (Some "BlueCross") (Some "PPO123") None None
           "19801215" eq_refl).
Defined.

(** ** Group number and plan across the two directions *)

Lemma in1_class (b : bool) (in1_segment : Segment) (patient_reference : string) :
  class (in1_to_fhir_coverage b in1_segment patient_reference)
  = class_entries (Py.strip (seg_str in1_segment 8))
                  (Py.strip (seg_str in1_segment 9)).
Proof.
  unfold in1_to_fhir_coverage, class_entries. cbn [class].
  destruct (has_field b in1_segment 8) eqn:E8;
    [|rewrite (has_field_false_str _ _ _ E8)];
    (destruct (has_field b in1_segment 9) eqn:E9;
     [|rewrite (has_field_false_str _ _ _ E9)]);
    cbn [Py.strip Py.lstrip Py.rstrip Py.truthy];
    repeat match goal with
           | |- context [Py.truthy ?s] => destruct (Py.truthy s)
           end;
    reflexivity.
Qed.

(** C6. The converter takes the group class from IN1 field 8 and the plan
    class from IN1 field 9 (stripped, skipped when empty).  The generator
    leaves field 8 empty, writes the group number to field 9 and the plan to
    field 10.  Converting a generated IN1 segment therefore never gives a
    group class: the group number comes back as the plan class and the plan
    is lost.  For the insurance BlueCross BlueShield / PPO123 / Gold Plan PPO
    / GRP456789 the converted message has the single class entry plan
    "GRP456789", whatever the clock reads. *)
Theorem group_plan_asymmetry (b : bool) :
  (forall (in1_segment : Segment) (patient_reference : string),
     class (in1_to_fhir_coverage b in1_segment patient_reference)
     = class_entries (Py.strip (seg_str in1_segment 8))
                     (Py.strip (seg_str in1_segment 9)))
  /\ (forall insurance_name member_id plan group_number,
        let parts := Hl7Generator.in1_parts insurance_name member_id plan
                       group_number in
        Py.item parts 8 = ""
        /\ Py.item parts 9 = Py.or_empty group_number
        /\ nth_error parts 10
           = (if Py.truthy_opt plan then Some (str_of plan) else None))
  /\ (forall insurance_name member_id plan group_number patient_reference,
        class (in1_to_fhir_coverage b
                 (segment_of_fields
                    (Hl7Generator.in1_parts insurance_name member_id plan
                       group_number))
                 patient_reference)
        = class_entries "" (Py.strip (Py.or_empty group_number)))
  /\ (forall now : datetime,
        exists text r c,
          Hl7Generator.generate_hl7_adt_message now (Some "MRN1") "Smith"
            "John" "12/15/1980" "Male" (Some "BlueCross BlueShield")
            (Some "PPO123") (Some "Gold Plan PPO") (Some "GRP456789")
          = inr text
          /\ convert_hl7_to_fhir b text = inr r
          /\ coverage r = Some c
          /\ class c = Some [plan_class "GRP456789"]
          /\ class c <> Some [group_class "GRP456789"; plan_class "Gold Plan PPO"]).
Proof.
  split; [|split; [|split]].
  - apply in1_class.
  - intros insurance_name member_id plan group_number parts. subst parts.
    unfold Hl7Generator.in1_parts, Py.or_empty.
    destruct (Py.truthy_opt group_number), (Py.truthy_opt plan);
      repeat split; reflexivity.
  - intros insurance_name member_id plan group_number patient_reference.
    rewrite in1_class.
    f_equal; unfold Hl7Generator.in1_parts, Py.or_empty;
      destruct (Py.truthy_opt group_number), (Py.truthy_opt plan); reflexivity.
  - intros now.
    exists (("MSH|" ++ header_body (strftime_YmdHMS now)) ++ CRs
            ++ "PID|1||MRN1^^^MRN||Smith^John||19801215|M" ++ CRs
            ++ "IN1|1|PPO123||BlueCross BlueShield|||||GRP456789|Gold Plan PPO").
    eexists; eexists.
    split; [reflexivity|].
    split; [|split; [|split]].
    + rewrite convert_with_header.
      * destruct b; vm_compute; reflexivity.
      * apply header_body_no_CR.
      * apply header_body_no_LF.
      * reflexivity.
      * reflexivity.
      * discriminate.
    + reflexivity.
    + reflexivity.
    + discriminate.
Qed.

(** * Further properties of the converter *)

(** ** Splitting *)

Lemma split_clean (sep : ascii) (s : string) :
  Py.contains sep s = false -> Py.split sep s = [s].
Proof.
  induction s as [|c s IH]; intros H; [reflexivity|].
  simpl in H. apply orb_false_iff in H as [Hc Hs].
  simpl. now rewrite Hc, (IH Hs).
Qed.

Lemma split_parts_clean (sep : ascii) (s : string) :
  Forall (fun part => Py.contains sep part = false) (Py.split sep s).
Proof.
  induction s as [|c s IH]; simpl.
  - now constructor.
  - destruct (Ascii.eqb c sep) eqn:E.
    + constructor; [reflexivity|exact IH].
    + destruct (Py.split sep s) as [|x xs].
      { constructor; [simpl; now rewrite E|constructor]. }
      inversion IH as [|? ? Hx Hxs]; subst.
      constructor; [|exact Hxs]. simpl. now rewrite E, Hx.
Qed.

Lemma item_clean (sep : ascii) (s : string) (i : nat) :
  Py.contains sep (Py.item (Py.split sep s) i) = false.
Proof.
  unfold Py.item.
  destruct (Nat.lt_ge_cases i (length (Py.split sep s))) as [L|L].
  - pose proof (split_parts_clean sep s) as F.
    rewrite Forall_forall in F. apply F. now apply nth_In.
  - now rewrite nth_overflow.
Qed.

Lemma app_empty_r (s : string) : s ++ "" = s.
Proof. induction s as [|c s IH]; simpl; [reflexivity|now rewrite IH]. Qed.

(** ** Names *)

Lemma parse_hl7_name_parts (parts : list string) (name_field : string) :
  Py.split "^" name_field = parts ->
  parse_hl7_name name_field
  = {| name_use := "official";
       family := Py.item parts 0;
       given := filter Py.truthy [Py.item parts 1; Py.item parts 2] |}.
Proof.
  intros <-. unfold parse_hl7_name.
  pose proof (split_nonempty "^" name_field) as N.
  destruct (Py.split "^" name_field) as [|f [|g [|m rest]]]; [congruence|..];
    cbn; repeat match goal with
                | |- context [Py.truthy ?s] => destruct (Py.truthy s)
                end; reflexivity.
Qed.

(** X1. A name field is read by components: the family name is the text
    before the first '^', the given names are the second and the third
    component, each kept only when non-empty, and whatever follows a third
    '^' (suffix, prefix) is ignored. *)
Theorem parse_hl7_name_components (f g m more : string) :
  Py.contains "^" f = false ->
  Py.contains "^" g = false ->
  Py.contains "^" m = false ->
  parse_hl7_name f
  = {| name_use := "official"; family := f; given := [] |}
  /\ parse_hl7_name (f ++ "^" ++ g)
     = {| name_use := "official"; family := f;
          given := filter Py.truthy [g] |}
  /\ parse_hl7_name (f ++ "^" ++ g ++ "^" ++ m)
     = {| name_use := "official"; family := f;
          given := filter Py.truthy [g; m] |}
  /\ parse_hl7_name (f ++ "^" ++ g ++ "^" ++ m ++ "^" ++ more)
     = {| name_use := "official"; family := f;
          given := filter Py.truthy [g; m] |}.
Proof.
  intros Hf Hg Hm.
  split; [|split; [|split]].
  - rewrite (parse_hl7_name_parts [f]); [reflexivity|].
    now apply split_clean.
  - rewrite (parse_hl7_name_parts [f; g]).
    + cbn. destruct (Py.truthy g); reflexivity.
    + change ("^" ++ g) with (String "^" g).
      rewrite split_app_sep by exact Hf. now rewrite split_clean.
  - rewrite (parse_hl7_name_parts [f; g; m]); [reflexivity|].
    change ("^" ++ g ++ "^" ++ m) with (String "^" (g ++ String "^" m)).
    rewrite split_app_sep by exact Hf.
    rewrite split_app_sep by exact Hg. now rewrite split_clean.
  - rewrite (parse_hl7_name_parts (f :: g :: m :: Py.split "^" more));
      [reflexivity|].
    change ("^" ++ g ++ "^" ++ m ++ "^" ++ more)
      with (String "^" (g ++ String "^" (m ++ String "^" more))).
    rewrite split_app_sep by exact Hf.
    rewrite split_app_sep by exact Hg.
    now rewrite split_app_sep by exact Hm.
Qed.

Lemma parse_hl7_name_components_witness :
  parse_hl7_name "Smith^^Alan^Jr^Dr"
  = {| name_use := "official"; family := "Smith"; given := ["Alan"] |}.
Proof.
  exact (proj2 (proj2 (proj2
           (parse_hl7_name_components "Smith" "" "Alan" "Jr^Dr"
              eq_refl eq_refl eq_refl)))).
Defined.

Lemma parse_hl7_name_invariant (name_field : string) :
  let n := parse_hl7_name name_field in
  name_use n = "official"
  /\ Py.contains "^" (family n) = false
  /\ length (given n) <= 2
  /\ Forall (fun g => g <> "" /\ Py.contains "^" g = false) (given n).
Proof.
  rewrite (parse_hl7_name_parts _ _ eq_refl). cbn [name_use family given].
  split; [reflexivity|]. split; [apply item_clean|].
  pose proof (item_clean "^" name_field 1) as C1.
  pose proof (item_clean "^" name_field 2) as C2.
  cbn [filter].
  destruct (Py.item (Py.split "^" name_field) 1) as [|c1 g1] eqn:E1,
           (Py.item (Py.split "^" name_field) 2) as [|c2 g2] eqn:E2;
    cbn [Py.truthy length]; (split; [lia|]);
    repeat constructor; try discriminate; assumption.
Qed.

(** ** Dates *)

Lemma parse_hl7_date_shape (date_str : string) :
  (8 <= String.length date_str ->
     exists R, parse_hl7_date date_str = Some R /\ String.length R = 10)
  /\ (String.length date_str < 8 -> parse_hl7_date date_str = None).
Proof.
  split.
  - intros H.
    destruct (long_string_inv date_str H)
      as (c0 & c1 & c2 & c3 & c4 & c5 & c6 & c7 & rest & ->).
    eexists; split; [reflexivity|]. destruct rest; reflexivity.
  - intros H. unfold parse_hl7_date.
    apply Nat.ltb_lt in H. rewrite H. now rewrite orb_true_r.
Qed.

(** ** Whitespace *)

Lemma rstrip_idempotent (s : string) : Py.rstrip (Py.rstrip s) = Py.rstrip s.
Proof.
  induction s as [|c s IH]; [reflexivity|].
  simpl. destruct (Py.rstrip s) as [|d r] eqn:E.
  - destruct (Py.isspace c) eqn:Ec; [reflexivity|].
    simpl. now rewrite Ec.
  - simpl in *. now rewrite IH.
Qed.

Lemma lstrip_head (s : string) :
  Py.lstrip s = ""
  \/ exists c t, Py.lstrip s = String c t /\ Py.isspace c = false.
Proof.
  induction s as [|c s IH]; [now left|].
  simpl. destruct (Py.isspace c) eqn:E; [exact IH|].
  right. now exists c, s.
Qed.

Lemma rstrip_head (c : ascii) (t : string) :
  Py.isspace c = false -> exists t', Py.rstrip (String c t) = String c t'.
Proof.
  intros H. simpl. destruct (Py.rstrip t) as [|d r].
  - rewrite H. now exists "".
  - now exists (String d r).
Qed.

Lemma strip_idempotent (s : string) : Py.strip (Py.strip s) = Py.strip s.
Proof.
  unfold Py.strip.
  destruct (lstrip_head s) as [->|(c & t & -> & Hc)]; [reflexivity|].
  destruct (rstrip_head c t Hc) as [t' E].
  rewrite E. simpl Py.lstrip. rewrite Hc, <- E.
  apply rstrip_idempotent.
Qed.

(** ** Shape of the resources *)

(** X2. Whatever the PID segment holds, the Patient has at most one
    identifier and at most one name.  The identifier is of use "usual" and
    type MR, and its value is the first '^'-component of field 3 (so it has
    no '^'); a non-empty field 3 always gives it.  The family name and the
    given names have no '^', there are at most two given names and none is
    empty.  The birth date is what [parse_hl7_date] makes of field 7: it is
    present iff the field has at least 8 characters, and then it has 10. *)
Theorem patient_shape (b : bool) (pid_segment : Segment) :
  let p := pid_to_fhir_patient b pid_segment in
  length (identifier p) <= 1
  /\ length (name p) <= 1
  /\ Forall (fun i => identifier_use i = "usual"
                      /\ identifier_type i = {| coding := [MR_coding] |}
                      /\ value i = Py.item (Py.split "^" (seg_str pid_segment 3)) 0
                      /\ Py.contains "^" (value i) = false)
            (identifier p)
  /\ (seg_str pid_segment 3 <> "" -> length (identifier p) = 1)
  /\ (identifier p = [] -> seg_str pid_segment 3 = "")
  /\ Forall (fun n => n = parse_hl7_name (seg_str pid_segment 5)
                      /\ Py.contains "^" (family n) = false
                      /\ length (given n) <= 2
                      /\ Forall (fun g => g <> "" /\ Py.contains "^" g = false)
                                (given n))
            (name p)
  /\ birthDate p = parse_hl7_date (seg_str pid_segment 7)
  /\ ((exists d, birthDate p = Some d) <-> 8 <= String.length (seg_str pid_segment 7))
  /\ (forall d, birthDate p = Some d -> String.length d = 10).
Proof.
  intros p.
  assert (B : birthDate p = parse_hl7_date (seg_str pid_segment 7)).
  { subst p. unfold pid_to_fhir_patient. cbn [birthDate].
    destruct (has_field b pid_segment 7) eqn:E.
    - destruct (parse_hl7_date (seg_str pid_segment 7)) as [d|] eqn:D;
        [|reflexivity].
      unfold parse_hl7_date in D.
      destruct (negb (Py.truthy (seg_str pid_segment 7))
                || (String.length (seg_str pid_segment 7) <? 8)); [discriminate|].
      injection D as <-.
      destruct (Py.slice 0 4 (seg_str pid_segment 7)); reflexivity.
    - now rewrite (has_field_false_str _ _ _ E). }
  subst p. unfold pid_to_fhir_patient in *. cbn [identifier name birthDate] in *.
  split; [destruct (has_field b pid_segment 3); simpl; lia|].
  split; [destruct (has_field b pid_segment 5); simpl; lia|].
  split.
  { destruct (has_field b pid_segment 3); simpl; repeat constructor.
    apply item_clean. }
  split.
  { intros H. now rewrite (has_field_nonempty b _ _ H). }
  split.
  { destruct (has_field b pid_segment 3) eqn:E; [discriminate|].
    intros _. now apply has_field_false_str in E. }
  split.
  { destruct (has_field b pid_segment 5); simpl; [|constructor].
    constructor; [|constructor].
    split; [reflexivity|].
    apply (parse_hl7_name_invariant (seg_str pid_segment 5)). }
  split; [exact B|].
  rewrite B.
  destruct (Nat.lt_ge_cases (String.length (seg_str pid_segment 7)) 8) as [L|L].
  - rewrite (proj2 (parse_hl7_date_shape _) L).
    split; [split; [intros [d H]; discriminate|lia]|discriminate].
  - destruct (proj1 (parse_hl7_date_shape _) L) as (R & -> & HR).
    split; [split; [intros _; exact L|intros _; now exists R]|].
    intros d H. now injection H as <-.
Qed.

Lemma patient_shape_witness :
  length (identifier (pid_to_fhir_patient false (pid_with_sex (Some "F")))) = 1.
Proof.
  apply (proj1 (proj2 (proj2 (proj2
           (patient_shape false (pid_with_sex (Some "F"))))))).
  discriminate.
Defined.

Lemma class_entries_none (group_number plan_name : string) :
  class_entries group_number plan_name = None
  <-> group_number = "" /\ plan_name = "".
Proof.
  unfold class_entries.
  destruct group_number, plan_name; simpl; split;
    try discriminate; try (intros [? ?]; discriminate); auto.
Qed.

Lemma class_entries_some (group_number plan_name : string)
    (entries : list CoverageClass) :
  class_entries group_number plan_name = Some entries ->
  entries = ((if Py.truthy group_number then [group_class group_number] else [])
             ++ (if Py.truthy plan_name then [plan_class plan_name] else []))%list
  /\ entries <> [].
Proof.
  unfold class_entries.
  destruct group_number, plan_name; simpl; intros H;
    try discriminate H; injection H as <-; split;
    try reflexivity; discriminate.
Qed.

(** X3. Whatever the IN1 segment holds, the Coverage is active, refers to
    the beneficiary it was given and has at most one payor.  It has no class
    key exactly when fields 8 and 9 are both empty after stripping;
    otherwise the class list has one or two entries, a group entry (without
    name) before a plan entry (named as its value), whose values are
    non-empty and carry no surrounding whitespace.  The subscriber id has
    no '^'. *)
Theorem coverage_shape (b : bool) (in1_segment : Segment) (patient_reference : string) :
  let c := in1_to_fhir_coverage b in1_segment patient_reference in
  coverage_resourceType c = "Coverage"
  /\ status c = "active"
  /\ reference (beneficiary c) = patient_reference
  /\ length (payor c) <= 1
  /\ (class c = None
      <-> Py.strip (seg_str in1_segment 8) = ""
          /\ Py.strip (seg_str in1_segment 9) = "")
  /\ (forall entries, class c = Some entries ->
        1 <= length entries <= 2
        /\ (exists groups plans,
              entries = (groups ++ plans)%list
              /\ Forall (fun e => e = group_class (Py.strip (seg_str in1_segment 8)))
                        groups
              /\ Forall (fun e => e = plan_class (Py.strip (seg_str in1_segment 9)))
                        plans
              /\ length groups <= 1 /\ length plans <= 1)
        /\ Forall (fun e => class_value e <> ""
                            /\ Py.strip (class_value e) = class_value e)
                  entries)
  /\ (forall sid, subscriberId c = Some sid -> Py.contains "^" sid = false).
Proof.
  intros c.
  split; [reflexivity|]. split; [reflexivity|]. split; [reflexivity|].
  split.
  { subst c. unfold in1_to_fhir_coverage. cbn [payor].
    destruct (has_field b in1_segment 4); simpl; lia. }
  subst c. rewrite in1_class.
  split; [apply class_entries_none|].
  split.
  - intros entries H. apply class_entries_some in H as [-> N].
    set (g := Py.strip (seg_str in1_segment 8)) in *.
    set (p := Py.strip (seg_str in1_segment 9)) in *.
    assert (Sg : Py.strip g = g) by apply strip_idempotent.
    assert (Sp : Py.strip p = p) by apply strip_idempotent.
    split; [|split].
    + destruct (Py.truthy g), (Py.truthy p); simpl in *; try lia. congruence.
    + exists (if Py.truthy g then [group_class g] else []),
             (if Py.truthy p then [plan_class p] else []).
      split; [reflexivity|].
      destruct (Py.truthy g), (Py.truthy p); simpl;
        repeat split; repeat constructor.
    + apply Forall_app. split.
      * destruct g; simpl; repeat constructor; [discriminate|exact Sg].
      * destruct p; simpl; repeat constructor; [discriminate|exact Sp].
  - unfold in1_to_fhir_coverage. cbn [subscriberId].
    destruct (has_field b in1_segment 2); [|discriminate].
    intros sid H. injection H as <-. apply item_clean.
Qed.

Lemma coverage_shape_witness :
  Py.contains "^" "PPO123" = false.
Proof.
  apply (proj2 (proj2 (proj2 (proj2 (proj2 (proj2
           (coverage_shape true
              (segment_of_fields ["IN1"; "1"; "PPO123^extra"])
              "Patient/temp")))))) "PPO123").
  reflexivity.
Defined.

(** ** Line ends *)

Lemma contains_false_eqb (c d : ascii) (s : string) :
  Py.contains c (String d s) = false -> d <> c /\ Py.contains c s = false.
Proof.
  simpl. intros H. apply orb_false_iff in H as [Hd Hs].
  split; [|exact Hs]. now apply Ascii.eqb_neq.
Qed.

(** Replacement passes over a text that lacks the first character of the
    pattern. *)
Lemma replace_from_app_clean (c0 : ascii) (old' new a rest : string) :
  Py.contains c0 a = false ->
  Py.replace_from (String c0 old') new (a ++ rest) 0
  = a ++ Py.replace_from (String c0 old') new rest 0.
Proof.
  induction a as [|d a IH]; intros H; [reflexivity|].
  apply contains_false_eqb in H as [Hd Ha].
  cbn [append Py.replace_from prefix].
  destruct (ascii_dec c0 d) as [E|_]; [now elim Hd|].
  now rewrite (IH Ha).
Qed.

Lemma replace_LF_head (rest : string) :
  Py.replace_from LFs CRs (String Py.LF rest) 0
  = String Py.CR (Py.replace_from LFs CRs rest 0).
Proof. destruct rest; reflexivity. Qed.

Lemma replace_CRLF_head (rest : string) :
  Py.replace_from (CRs ++ LFs) CRs (String Py.CR (String Py.LF rest)) 0
  = String Py.CR (Py.replace_from (CRs ++ LFs) CRs rest 0).
Proof. destruct rest; reflexivity. Qed.

Lemma replace_LF_no_LF (s : string) :
  Py.contains Py.LF (Py.replace LFs CRs s) = false.
Proof.
  unfold Py.replace. induction s as [|c s IH]; [reflexivity|].
  cbn [Py.replace_from LFs prefix].
  destruct (ascii_dec Py.LF c) as [E|N].
  - destruct s; cbn [prefix String.length Nat.sub]; exact IH.
  - cbn [Py.contains]. rewrite IH, orb_false_r.
    apply Ascii.eqb_neq. congruence.
Qed.

Lemma join_contains (c : ascii) (sep : string) (parts : list string) :
  Py.contains c sep = false ->
  Forall (fun s => Py.contains c s = false) parts ->
  Py.contains c (Py.join sep parts) = false.
Proof.
  intros Hsep F. induction F as [|x xs Hx F IH]; [reflexivity|].
  destruct xs as [|y ys]; [exact Hx|].
  change (Py.join sep (x :: y :: ys)) with (x ++ sep ++ Py.join sep (y :: ys)).
  now rewrite !contains_app, Hx, Hsep, IH.
Qed.

Lemma replace_LF_join (parts : list string) :
  Forall (fun s => Py.contains Py.LF s = false) parts ->
  Py.replace LFs CRs (Py.join LFs parts) = Py.join CRs parts.
Proof.
  unfold Py.replace. intros F.
  induction F as [|x xs Hx F IH]; [reflexivity|].
  destruct xs as [|y ys].
  - cbn [Py.join]. rewrite <- (app_empty_r x) at 1.
    unfold LFs. rewrite replace_from_app_clean by exact Hx.
    apply app_empty_r.
  - change (Py.join LFs (x :: y :: ys))
      with (x ++ String Py.LF (Py.join LFs (y :: ys))).
    change (Py.join CRs (x :: y :: ys))
      with (x ++ String Py.CR (Py.join CRs (y :: ys))).
    unfold LFs at 1. rewrite replace_from_app_clean by exact Hx.
    fold LFs. now rewrite replace_LF_head, IH.
Qed.

Lemma replace_CRLF_join (parts : list string) :
  Forall (fun s => Py.contains Py.CR s = false) parts ->
  Py.replace (CRs ++ LFs) CRs (Py.join (CRs ++ LFs) parts) = Py.join CRs parts.
Proof.
  unfold Py.replace. intros F.
  induction F as [|x xs Hx F IH]; [reflexivity|].
  destruct xs as [|y ys].
  - cbn [Py.join]. rewrite <- (app_empty_r x) at 1.
    change (CRs ++ LFs) with (String Py.CR LFs).
    rewrite replace_from_app_clean by exact Hx.
    apply app_empty_r.
  - change (Py.join (CRs ++ LFs) (x :: y :: ys))
      with (x ++ String Py.CR (String Py.LF (Py.join (CRs ++ LFs) (y :: ys)))).
    change (Py.join CRs (x :: y :: ys))
      with (x ++ String Py.CR (Py.join CRs (y :: ys))).
    change (CRs ++ LFs) with (String Py.CR LFs) at 1.
    rewrite replace_from_app_clean by exact Hx.
    change (String Py.CR LFs) with (CRs ++ LFs).
    now rewrite replace_CRLF_head, IH.
Qed.

(** X4. [parse_hl7_message] hands to the parser a text without line feed,
    and the three line-end conventions give the same parse: segments without
    line ends joined by CR LF, by LF or by CR are parsed alike. *)
Theorem line_ends_normalised :
  (forall hl7_message : string,
     exists text,
       parse_hl7_message hl7_message = hl7_parse text
       /\ Py.contains Py.LF text = false)
  /\ (forall segments : list string,
        Forall no_line_end segments ->
        parse_hl7_message (Py.join (CRs ++ LFs) segments)
        = hl7_parse (Py.join CRs segments)
        /\ parse_hl7_message (Py.join LFs segments)
           = hl7_parse (Py.join CRs segments)
        /\ parse_hl7_message (Py.join CRs segments)
           = hl7_parse (Py.join CRs segments)).
Proof.
  split.
  - intros hl7_message. eexists. split; [reflexivity|].
    apply replace_LF_no_LF.
  - intros segments F.
    assert (FC : Forall (fun s => Py.contains Py.CR s = false) segments).
    { eapply Forall_impl; [|exact F]. now intros s [H _]. }
    assert (FL : Forall (fun s => Py.contains Py.LF s = false) segments).
    { eapply Forall_impl; [|exact F]. now intros s [_ H]. }
    assert (NL : Py.contains Py.LF (Py.join CRs segments) = false)
      by (apply join_contains; [reflexivity|exact FL]).
    unfold parse_hl7_message.
    split; [|split].
    + rewrite (replace_CRLF_join _ FC).
      now rewrite (replace_absent Py.LF LFs CRs _ eq_refl NL).
    + rewrite (replace_absent Py.CR (CRs ++ LFs) CRs (Py.join LFs segments) eq_refl)
        by (apply join_contains; [reflexivity|exact FC]).
      now rewrite (replace_LF_join _ FL).
    + rewrite (replace_absent Py.LF (CRs ++ LFs) CRs _ eq_refl NL).
      now rewrite (replace_absent Py.LF LFs CRs _ eq_refl NL).
Qed.

Lemma line_ends_normalised_witness :
  parse_hl7_message
    (Py.join LFs ["MSH|^~\&|EPIC"; "PID|1||MRN1^^^MRN||Smith^John||19801215|M"])
  = hl7_parse
      (Py.join CRs ["MSH|^~\&|EPIC"; "PID|1||MRN1^^^MRN||Smith^John||19801215|M"]).
Proof.
  apply (proj2 line_ends_normalised
           ["MSH|^~\&|EPIC"; "PID|1||MRN1^^^MRN||Smith^John||19801215|M"]).
  repeat constructor.
Defined.

(** ** Dates across the two directions *)

Lemma zfill2_length (s : string) :
  String.length s <= 2 -> String.length (Py.zfill 2 s) = 2.
Proof.
  destruct s as [|c [|d [|e s]]]; simpl; intros H; try lia;
    unfold Py.zfill; simpl;
    destruct (Ascii.eqb c "+" || Ascii.eqb c "-"); reflexivity.
Qed.

Lemma two_chars (s : string) :
  String.length s = 2 -> exists c d, s = String c (String d "").
Proof.
  destruct s as [|c [|d [|e s]]]; simpl; intros H; try discriminate.
  now exists c, d.
Qed.

Lemma four_chars (s : string) :
  String.length s = 4 ->
  exists a b c d, s = String a (String b (String c (String d ""))).
Proof.
  destruct s as [|a [|b [|c [|d [|e s]]]]]; simpl; intros H; try discriminate.
  now exists a, b, c, d.
Qed.

(** X5. A date of birth month/day/year whose year has four characters and
    whose month and day have at most two is written by the generator as the
    year followed by month and day filled to two characters, and the
    converter reads that text back as year-month-day. *)
Theorem date_of_birth_round_trip (month day year : string) :
  Py.contains "/" month = false ->
  Py.contains "/" day = false ->
  Py.contains "/" year = false ->
  String.length year = 4 ->
  String.length month <= 2 ->
  String.length day <= 2 ->
  Hl7Generator.format_date_for_hl7 (month ++ "/" ++ day ++ "/" ++ year)
  = inr (year ++ Py.zfill 2 month ++ Py.zfill 2 day)
  /\ parse_hl7_date (year ++ Py.zfill 2 month ++ Py.zfill 2 day)
     = Some (year ++ "-" ++ Py.zfill 2 month ++ "-" ++ Py.zfill 2 day).
Proof.
  intros Hm Hd Hy Ly Lm Ld. split.
  - apply format_date_three.
    change ("/" ++ day ++ "/" ++ year) with (String "/" (day ++ String "/" year)).
    rewrite split_app_sep by exact Hm.
    rewrite split_app_sep by exact Hd.
    now rewrite split_clean.
  - destruct (four_chars _ Ly) as (a & b & c & d & ->).
    destruct (two_chars _ (zfill2_length _ Lm)) as (m1 & m2 & ->).
    destruct (two_chars _ (zfill2_length _ Ld)) as (d1 & d2 & ->).
    reflexivity.
Qed.

Lemma date_of_birth_round_trip_witness :
  Hl7Generator.format_date_for_hl7 "3/7/1980" = inr "19800307"
  /\ parse_hl7_date "19800307" = Some "1980-03-07".
Proof.
  apply (date_of_birth_round_trip "3" "7" "1980"); try reflexivity;
    simpl; lia.
Defined.

(** ** Round trip from the generator to the converter *)

Lemma plain_inv (s : string) :
  plain s = true ->
  Py.contains "|" s = false /\ Py.contains "^" s = false
  /\ Py.contains Py.CR s = false /\ Py.contains Py.LF s = false.
Proof.
  unfold plain. intros H.
  repeat (apply andb_true_iff in H as [H ?]).
  repeat split; now apply negb_true_iff.
Qed.

Lemma plain_intro (s : string) :
  Py.contains "|" s = false -> Py.contains "^" s = false ->
  Py.contains Py.CR s = false -> Py.contains Py.LF s = false ->
  plain s = true.
Proof. unfold plain. now intros -> -> -> ->. Qed.

Lemma plain_digits (s : string) : all_digits s = true -> plain s = true.
Proof.
  intros H. apply plain_intro; apply digits_exclude; try exact H; reflexivity.
Qed.

Lemma plain_app (a b : string) : plain (a ++ b) = plain a && plain b.
Proof.
  unfold plain. rewrite !contains_app.
  destruct (Py.contains "|" a), (Py.contains "^" a), (Py.contains Py.CR a),
           (Py.contains Py.LF a); simpl; try reflexivity;
    now rewrite ?andb_false_r.
Qed.

Lemma effective_mrn_plain (now : datetime) (mrn : option string) :
  (forall s, mrn = Some s -> plain s = true) ->
  plain (effective_mrn now mrn) = true /\ effective_mrn now mrn <> "".
Proof.
  intros H. unfold effective_mrn.
  destruct mrn as [[|c s]|]; cbn [Py.truthy_opt Py.truthy str_of].
  - split; [|discriminate]. rewrite plain_app.
    now rewrite (plain_digits _ (all_digits_strftime now)).
  - split; [now apply H|discriminate].
  - split; [|discriminate]. rewrite plain_app.
    now rewrite (plain_digits _ (all_digits_strftime now)).
Qed.

Lemma split_contains (c sep : ascii) (s : string) :
  Py.contains c s = false ->
  Forall (fun part => Py.contains c part = false) (Py.split sep s).
Proof.
  induction s as [|d s IH]; intros H.
  - repeat constructor.
  - apply contains_false_eqb in H as [Hd Hs]. specialize (IH Hs).
    simpl. destruct (Ascii.eqb d sep).
    + constructor; [reflexivity|exact IH].
    + apply Ascii.eqb_neq in Hd.
      destruct (Py.split sep s) as [|x xs].
      * repeat constructor. simpl. now rewrite Hd.
      * inversion IH as [|? ? Hx Hxs]; subst.
        constructor; [|exact Hxs]. simpl. now rewrite Hd, Hx.
Qed.

Lemma zeros_contains (c : ascii) (n : nat) :
  c <> "0"%char -> Py.contains c (Py.zeros n) = false.
Proof.
  intros H. induction n as [|n IH]; [reflexivity|].
  cbn [Py.zeros Py.contains]. rewrite IH, orb_false_r.
  apply Ascii.eqb_neq. congruence.
Qed.

Lemma zfill_contains (c : ascii) (width : nat) (s : string) :
  c <> "0"%char -> Py.contains c s = false ->
  Py.contains c (Py.zfill width s) = false.
Proof.
  intros Hc Hs. unfold Py.zfill.
  destruct s as [|d s].
  - now apply zeros_contains.
  - destruct (Ascii.eqb d "+" || Ascii.eqb d "-").
    + apply contains_false_eqb in Hs as [Hd Hs'].
      cbn [Py.contains]. rewrite contains_app, Hs', zeros_contains by exact Hc.
      rewrite orb_false_r. now apply Ascii.eqb_neq.
    + now rewrite contains_app, Hs, zeros_contains by exact Hc.
Qed.

Lemma format_date_contains (c : ascii) (dob hl7_dob : string) :
  c <> "0"%char -> Py.contains c dob = false ->
  Hl7Generator.format_date_for_hl7 dob = inr hl7_dob ->
  Py.contains c hl7_dob = false.
Proof.
  intros Hc Hdob. unfold Hl7Generator.format_date_for_hl7.
  pose proof (split_contains c "/" dob Hdob) as F.
  destruct (Py.split "/" dob) as [|m [|d [|y [|e rest]]]]; try discriminate.
  intros H. injection H as <-.
  inversion F as [|? ? Fm F1]; subst.
  inversion F1 as [|? ? Fd F2]; subst.
  inversion F2 as [|? ? Fy _]; subst.
  now rewrite !contains_app, Fy, !zfill_contains.
Qed.

Lemma format_date_plain (dob hl7_dob : string) :
  plain dob = true ->
  Hl7Generator.format_date_for_hl7 dob = inr hl7_dob ->
  plain hl7_dob = true.
Proof.
  intros P H. apply plain_inv in P as (P1 & P2 & P3 & P4).
  apply plain_intro; eapply format_date_contains; eauto; discriminate.
Qed.

Lemma split_join (sep : ascii) (parts : list string) :
  parts <> [] ->
  Forall (fun part => Py.contains sep part = false) parts ->
  Py.split sep (Py.join (String sep "") parts) = parts.
Proof.
  intros N F. induction F as [|x xs Hx F IH]; [congruence|].
  destruct xs as [|y ys].
  - now apply split_clean.
  - change (Py.join (String sep "") (x :: y :: ys))
      with (x ++ String sep (Py.join (String sep "") (y :: ys))).
    rewrite split_app_sep by exact Hx.
    now rewrite IH.
Qed.

Lemma pid_line_fields (mrn last_name first_name hl7_dob hl7_gender : string) :
  pid_line mrn last_name first_name hl7_dob hl7_gender
  = Py.join "|" ["PID"; "1"; ""; mrn ++ "^^^MRN"; ""; last_name ++ "^" ++ first_name;
                 ""; hl7_dob; hl7_gender].
Proof.
  unfold pid_line. cbn [Py.join]. now rewrite !app_assoc_str.
Qed.

Lemma pid_birthDate (b : bool) (pid_segment : Segment) :
  birthDate (pid_to_fhir_patient b pid_segment)
  = parse_hl7_date (seg_str pid_segment 7).
Proof.
  unfold pid_to_fhir_patient. cbn [birthDate].
  destruct (has_field b pid_segment 7) eqn:E.
  - destruct (parse_hl7_date (seg_str pid_segment 7)) as [d|] eqn:D;
      [|reflexivity].
    unfold parse_hl7_date in D.
    destruct (negb (Py.truthy (seg_str pid_segment 7))
              || (String.length (seg_str pid_segment 7) <? 8)); [discriminate|].
    injection D as <-.
    destruct (Py.slice 0 4 (seg_str pid_segment 7)); reflexivity.
  - now rewrite (has_field_false_str _ _ _ E).
Qed.

Lemma pid_identifier (b : bool) (pid_segment : Segment) :
  seg_str pid_segment 3 <> "" ->
  identifier (pid_to_fhir_patient b pid_segment)
  = [ {| identifier_use := "usual";
         identifier_type := {| coding := [MR_coding] |};
         value := Py.item (Py.split "^" (seg_str pid_segment 3)) 0 |} ].
Proof.
  intros H. unfold pid_to_fhir_patient. cbn [identifier].
  now rewrite (has_field_nonempty b _ _ H).
Qed.

Lemma pid_name (b : bool) (pid_segment : Segment) :
  seg_str pid_segment 5 <> "" ->
  name (pid_to_fhir_patient b pid_segment)
  = [parse_hl7_name (seg_str pid_segment 5)].
Proof.
  intros H. unfold pid_to_fhir_patient. cbn [name].
  now rewrite (has_field_nonempty b _ _ H).
Qed.

Lemma patient_eta (p : Patient) :
  p = {| patient_resourceType := patient_resourceType p;
         identifier := identifier p;
         name := name p;
         gender := gender p;
         birthDate := birthDate p |}.
Proof. now destruct p. Qed.

Lemma keeps_end_app (a b : string) : keeps_end b -> keeps_end (a ++ b).
Proof.
  intros [R N]. split; [|now apply app_not_empty].
  rewrite rstrip_app by (now rewrite R). now rewrite R.
Qed.

Lemma keeps_end_gender_code (gender : string) : keeps_end (gender_code gender).
Proof.
  unfold gender_code. destruct (str_in _ _); split; try reflexivity; discriminate.
Qed.

Lemma gender_code_contains (c : ascii) (gender : string) :
  c <> "M"%char -> c <> "F"%char ->
  Py.contains c (gender_code gender) = false.
Proof.
  intros HM HF. unfold gender_code.
  destruct (str_in _ _); cbn [Py.contains]; rewrite orb_false_r;
    apply Ascii.eqb_neq; congruence.
Qed.

Lemma pid_line_contains (c : ascii)
    (mrn last_name first_name hl7_dob gender : string) :
  Py.contains c "PID|1||^^^MRN||^|||MF" = false ->
  Py.contains c mrn = false ->
  Py.contains c last_name = false ->
  Py.contains c first_name = false ->
  Py.contains c hl7_dob = false ->
  Py.contains c (pid_line mrn last_name first_name hl7_dob (gender_code gender))
  = false.
Proof.
  intros Hc Hm Hl Hf Hd. unfold pid_line.
  rewrite !contains_app, Hm, Hl, Hf, Hd.
  assert (G : Py.contains c (gender_code gender) = false).
  { unfold gender_code.
    cbn [Py.contains] in Hc.
    repeat (apply orb_false_iff in Hc as [? Hc]).
    destruct (str_in _ _); cbn [Py.contains];
      repeat match goal with H : _ = false |- _ => rewrite H; clear H end;
      reflexivity. }
  rewrite G. cbn [Py.contains] in *.
  repeat (apply orb_false_iff in Hc as [? Hc]).
  repeat match goal with H : Ascii.eqb _ _ = false |- _ => rewrite H; clear H end.
  reflexivity.
Qed.

Lemma convert_single_pid (b : bool) (fields : list string) :
  convert_message b [{| seg_head := "PID"; seg_tail := fields |}]
  = {| patient := Some (pid_to_fhir_patient b
                          {| seg_head := "PID"; seg_tail := fields |});
       coverage := None |}.
Proof. reflexivity. Qed.

Lemma first_component (value_text rest : string) :
  Py.contains "^" value_text = false ->
  Py.item (Py.split "^" (value_text ++ String "^" rest)) 0 = value_text.
Proof. intros H. now rewrite split_app_sep. Qed.

Lemma pid_line_segment (mrn last_name first_name hl7_dob gender : string) :
  Py.contains "|" mrn = false -> Py.contains "|" last_name = false ->
  Py.contains "|" first_name = false -> Py.contains "|" hl7_dob = false ->
  parse_segment "|"
    (pid_line mrn last_name first_name hl7_dob (gender_code gender))
  = {| seg_head := "PID";
       seg_tail := ["1"; ""; mrn ++ "^^^MRN"; ""; last_name ++ "^" ++ first_name;
                    ""; hl7_dob; gender_code gender] |}.
Proof.
  intros Pm Pl Pf Pd.
  unfold parse_segment. rewrite pid_line_fields, split_join.
  - reflexivity.
  - discriminate.
  - repeat constructor; rewrite ?contains_app, ?Pm, ?Pl, ?Pf, ?Pd;
      try reflexivity.
    apply gender_code_contains; discriminate.
Qed.

(** The Patient read from the PID segment that the generators write. *)
Lemma pid_line_patient (b : bool)
    (mrn last_name first_name hl7_dob gender : string) :
  plain mrn = true -> plain last_name = true -> plain first_name = true ->
  plain hl7_dob = true ->
  pid_to_fhir_patient b
    (parse_segment "|"
       (pid_line mrn last_name first_name hl7_dob (gender_code gender)))
  = generated_patient mrn last_name first_name gender (parse_hl7_date hl7_dob).
Proof.
  intros Pm Pl Pf Pd.
  apply plain_inv in Pm as (Pm1 & Pm2 & _ & _).
  apply plain_inv in Pl as (Pl1 & Pl2 & _ & _).
  apply plain_inv in Pf as (Pf1 & Pf2 & _ & _).
  apply plain_inv in Pd as (Pd1 & _ & _ & _).
  rewrite pid_line_segment by assumption.
  rewrite (patient_eta (pid_to_fhir_patient b _)).
  rewrite pid_gender, pid_birthDate.
  rewrite pid_identifier
    by (cbn; apply app_not_empty; discriminate).
  rewrite pid_name
    by (cbn; apply app_not_empty; discriminate).
  cbn [seg_str seg_fields seg_head seg_tail Py.item nth].
  change (mrn ++ "^^^MRN") with (mrn ++ String "^" "^^MRN").
  rewrite (first_component _ _ Pm2).
  rewrite (parse_hl7_name_parts [last_name; first_name]).
  2: { change ("^" ++ first_name) with (String "^" first_name).
       rewrite split_app_sep by exact Pl2. now rewrite split_clean. }
  unfold generated_patient, gender_code.
  cbn [Py.item nth filter Py.truthy].
  destruct (str_in (Py.upper gender) ["MALE"; "M"]); reflexivity.
Qed.

(** X6. Round trip of the patient fields through the generator and the
    converter.  For an MRN, a last name, a first name and a date of birth
    without '|', '^' and line ends, the message generated without insurance
    converts to the Patient whose only identifier is the MRN (the supplied
    one, or "MRN" and the timestamp when none is supplied), whose only name
    has the last name as family and the first name, when not empty, as its
    given name, whose gender is "male" when the gender argument is M or MALE
    in any case and "female" for every other argument, and whose birth date
    is what the converter reads from the generated date.  No Coverage comes
    with it. *)
Theorem generated_patient_round_trip
    (b : bool) (now : datetime) (mrn : option string)
    (last_name first_name dob gender hl7_dob : string) :
  (forall s, mrn = Some s -> plain s = true) ->
  plain last_name = true ->
  plain first_name = true ->
  plain dob = true ->
  Hl7Generator.format_date_for_hl7 dob = inr hl7_dob ->
  exists text,
    Hl7Generator.generate_hl7_adt_message now mrn last_name first_name dob
      gender None None None None = inr text
    /\ convert_hl7_to_fhir b text
       = inr {| patient :=
                  Some (generated_patient (effective_mrn now mrn) last_name
                          first_name gender (parse_hl7_date hl7_dob));
                coverage := None |}.
Proof.
  intros Hmrn Pl Pf Pdob Hfmt.
  destruct (effective_mrn_plain now mrn Hmrn) as [Pm _].
  pose proof (format_date_plain _ _ Pdob Hfmt) as Pd.
  exists (("MSH|" ++ header_body (strftime_YmdHMS now)) ++ CRs
          ++ pid_line (effective_mrn now mrn) last_name first_name hl7_dob
               (gender_code gender)).
  split.
  - unfold Hl7Generator.generate_hl7_adt_message, Hl7Generator.segments_of.
    rewrite Hfmt. unfold effective_mrn, pid_line, gender_code.
    destruct (Py.truthy_opt mrn); reflexivity.
  - pose proof (plain_inv _ Pm) as (_ & _ & Mc & Ml).
    pose proof (plain_inv _ Pl) as (_ & _ & Lc & Ll).
    pose proof (plain_inv _ Pf) as (_ & _ & Fc & Fl).
    pose proof (plain_inv _ Pd) as (_ & _ & Dc & Dl).
    assert (NoCR : Py.contains Py.CR
                     (pid_line (effective_mrn now mrn) last_name first_name
                        hl7_dob (gender_code gender)) = false)
      by (apply pid_line_contains; auto).
    rewrite convert_with_header.
    + rewrite (split_clean _ _ NoCR). cbn [map].
      rewrite <- (pid_line_patient b) by assumption.
      pose proof (plain_inv _ Pm) as (Mb & _).
      pose proof (plain_inv _ Pl) as (Lb & _).
      pose proof (plain_inv _ Pf) as (Fb & _).
      pose proof (plain_inv _ Pd) as (Db & _).
      rewrite pid_line_segment by assumption.
      now rewrite convert_single_pid.
    + apply header_body_no_CR.
    + apply header_body_no_LF.
    + apply pid_line_contains; auto.
    + unfold pid_line. repeat apply keeps_end_app. apply keeps_end_gender_code.
    + unfold pid_line. discriminate.
Qed.

Lemma generated_patient_round_trip_witness :
  exists text,
    Hl7Generator.generate_hl7_adt_message clock_2023 None "O'Neil" "" "3/7/1980"
      "female" None None None None = inr text
    /\ convert_hl7_to_fhir true text
       = inr {| patient :=
                  Some (generated_patient "MRN20231031120000" "O'Neil" ""
                          "female" (Some "1980-03-07"));
                coverage := None |}.
Proof.
  apply (generated_patient_round_trip true clock_2023 None "O'Neil" ""
           "3/7/1980" "female" "19800307");
    try reflexivity.
  intros s H. discriminate H.
Defined.

(** ** Round trip with insurance *)

Lemma coverage_eta (c : Coverage) :
  c = {| coverage_resourceType := coverage_resourceType c;
         status := status c;
         beneficiary := beneficiary c;
         payor := payor c;
         subscriberId := subscriberId c;
         class := class c |}.
Proof. now destruct c. Qed.

Lemma in1_payor (b : bool) (in1_segment : Segment) (patient_reference : string) :
  seg_str in1_segment 4 <> "" ->
  payor (in1_to_fhir_coverage b in1_segment patient_reference)
  = [ {| payor_display := seg_str in1_segment 4 |} ].
Proof.
  intros H. unfold in1_to_fhir_coverage. cbn [payor].
  now rewrite (has_field_nonempty b _ _ H).
Qed.

Lemma in1_subscriberId (b : bool) (in1_segment : Segment)
    (patient_reference : string) :
  seg_str in1_segment 2 <> "" ->
  subscriberId (in1_to_fhir_coverage b in1_segment patient_reference)
  = Some (Py.item (Py.split "^" (seg_str in1_segment 2)) 0).
Proof.
  intros H. unfold in1_to_fhir_coverage. cbn [subscriberId].
  now rewrite (has_field_nonempty b _ _ H).
Qed.

Lemma in1_parts_head (insurance_name member_id plan group_number : option string) :
  exists fields,
    Hl7Generator.in1_parts insurance_name member_id plan group_number
    = "IN1" :: "1" :: Py.or_empty member_id :: "" :: Py.or_empty insurance_name
      :: "" :: "" :: "" :: "" :: Py.or_empty group_number :: fields
    /\ (fields = [] \/ exists p, plan = Some p /\ p <> "" /\ fields = [p]).
Proof.
  unfold Hl7Generator.in1_parts, Py.or_empty.
  destruct group_number as [[|c g]|], plan as [[|d q]|];
    cbn [Py.truthy_opt Py.truthy str_of app];
    eexists; (split; [reflexivity|]); auto;
    right; eexists; repeat split; discriminate.
Qed.

(** The Coverage read from the IN1 fields that the generator writes. *)
Lemma in1_parts_coverage (b : bool) (insurance_name member_id : string)
    (plan group_number : option string) (patient_reference : string) :
  insurance_name <> "" -> member_id <> "" ->
  Py.contains "^" member_id = false ->
  in1_to_fhir_coverage b
    (segment_of_fields
       (Hl7Generator.in1_parts (Some insurance_name) (Some member_id) plan
          group_number))
    patient_reference
  = {| coverage_resourceType := "Coverage";
       status := "active";
       beneficiary := {| reference := patient_reference |};
       payor := [ {| payor_display := insurance_name |} ];
       subscriberId := Some member_id;
       class := class_entries "" (Py.strip (Py.or_empty group_number)) |}.
Proof.
  intros Hn Hm Hc.
  destruct (in1_parts_head (Some insurance_name) (Some member_id) plan
              group_number) as (fields & E & _).
  rewrite E, !or_empty_some. cbn [segment_of_fields].
  rewrite (coverage_eta (in1_to_fhir_coverage b _ _)).
  rewrite in1_class, in1_payor, in1_subscriberId by (cbn; assumption).
  cbn [seg_str seg_fields seg_head seg_tail Py.item nth].
  rewrite (split_clean _ _ Hc).
  reflexivity.
Qed.

Lemma convert_pid_in1 (b : bool) (pid_fields in1_fields : list string) :
  convert_message b [ {| seg_head := "PID"; seg_tail := pid_fields |};
                      {| seg_head := "IN1"; seg_tail := in1_fields |} ]
  = assemble b (Some {| seg_head := "PID"; seg_tail := pid_fields |})
               (Some {| seg_head := "IN1"; seg_tail := in1_fields |}).
Proof. reflexivity. Qed.

Lemma in1_parts_contains (c : ascii) (insurance_name member_id : string)
    (plan group_number : option string) :
  Py.contains c "IN1" = false ->
  Py.contains c insurance_name = false ->
  Py.contains c member_id = false ->
  (forall s, plan = Some s -> Py.contains c s = false) ->
  (forall s, group_number = Some s -> Py.contains c s = false) ->
  Forall (fun part => Py.contains c part = false)
    (Hl7Generator.in1_parts (Some insurance_name) (Some member_id) plan
       group_number).
Proof.
  intros Hc Hn Hm Hp Hg.
  assert (H1 : Py.contains c "1" = false).
  { cbn [Py.contains] in *.
    destruct (Ascii.eqb "I" c), (Ascii.eqb "N" c), (Ascii.eqb "1" c);
      try discriminate; reflexivity. }
  unfold Hl7Generator.in1_parts, Py.or_empty.
  destruct insurance_name, member_id;
    destruct group_number as [[|g0 g]|], plan as [[|p0 p]|];
    cbn [Py.truthy_opt Py.truthy str_of app];
    repeat constructor; try reflexivity; try assumption;
    try (now apply Hp); try (now apply Hg).
Qed.

Lemma keeps_end_join (x y : string) (rest : list string) :
  (forall l, last (y :: rest) "" = l -> l = "" \/ Py.rstrip l = l) ->
  keeps_end (Py.join "|" (x :: y :: rest)).
Proof.
  revert x y. induction rest as [|z rest IH]; intros x y H.
  - cbn [Py.join]. apply keeps_end_app.
    destruct (H y eq_refl) as [->|R].
    + split; [reflexivity|discriminate].
    + destruct y as [|c y]; [split; [reflexivity|discriminate]|].
      change ("|" ++ String c y) with (String "|" "" ++ String c y).
      apply keeps_end_app. split; [exact R|discriminate].
  - change (Py.join "|" (x :: y :: z :: rest))
      with (x ++ "|" ++ Py.join "|" (y :: z :: rest)).
    do 2 apply keeps_end_app. apply IH. intros l Hl. apply H.
    exact Hl.
Qed.

(** X7. Round trip with insurance.  With the conditions of the patient
    round trip, an insurance name and a member id that are non-empty and
    without '|', '^' and line ends, and a plan and a group number that, when
    given, are without them and do not end in whitespace, the generated
    message converts to the same Patient and to a Coverage with the member
    id as subscriber, the insurance name as only payor and the beneficiary
    "Patient/" followed by the MRN.  Its class holds at most one entry: the
    group number, stripped, coded as plan; the plan argument does not come
    back. *)
Theorem generated_coverage_round_trip
    (b : bool) (now : datetime) (mrn : option string)
    (last_name first_name dob gender hl7_dob : string)
    (insurance_name member_id : string) (plan group_number : option string) :
  (forall s, mrn = Some s -> plain s = true) ->
  plain last_name = true ->
  plain first_name = true ->
  plain dob = true ->
  Hl7Generator.format_date_for_hl7 dob = inr hl7_dob ->
  plain insurance_name = true -> insurance_name <> "" ->
  plain member_id = true -> member_id <> "" ->
  plain_opt plan -> plain_opt group_number ->
  exists text,
    Hl7Generator.generate_hl7_adt_message now mrn last_name first_name dob
      gender (Some insurance_name) (Some member_id) plan group_number
    = inr text
    /\ convert_hl7_to_fhir b text
       = inr {| patient :=
                  Some (generated_patient (effective_mrn now mrn) last_name
                          first_name gender (parse_hl7_date hl7_dob));
                coverage :=
                  Some (generated_coverage (effective_mrn now mrn)
                          insurance_name member_id group_number) |}.
Proof.
  intros Hmrn Pl Pf Pdob Hfmt Pn Nn Pi Ni Pp Pg.
  destruct (effective_mrn_plain now mrn Hmrn) as [Pm _].
  pose proof (format_date_plain _ _ Pdob Hfmt) as Pd.
  set (m := effective_mrn now mrn) in *.
  set (parts := Hl7Generator.in1_parts (Some insurance_name) (Some member_id)
                  plan group_number).
  exists (("MSH|" ++ header_body (strftime_YmdHMS now)) ++ CRs
          ++ pid_line m last_name first_name hl7_dob (gender_code gender)
          ++ CRs ++ Py.join "|" parts).
  split.
  - unfold Hl7Generator.generate_hl7_adt_message, Hl7Generator.segments_of.
    rewrite Hfmt, !truthy_opt_some by assumption.
    subst m parts. unfold effective_mrn, pid_line, gender_code.
    destruct (Py.truthy_opt mrn); reflexivity.
  - pose proof (plain_inv _ Pm) as (Mb & Mh & Mc & Ml).
    pose proof (plain_inv _ Pl) as (Lb & _ & Lc & Ll).
    pose proof (plain_inv _ Pf) as (Fb & _ & Fc & Fl).
    pose proof (plain_inv _ Pd) as (Db & _ & Dc & Dl).
    pose proof (plain_inv _ Pn) as (Nb & _ & Nc & Nl).
    pose proof (plain_inv _ Pi) as (Ib & Ih & Ic & Il).
    assert (Parts : forall c, Py.contains c "IN1" = false ->
                      (forall s, plain s = true -> Py.contains c s = false) ->
                      Forall (fun part => Py.contains c part = false) parts).
    { intros c Hc Hplain. apply in1_parts_contains; auto.
      - intros s E. apply Hplain. now apply Pp.
      - intros s E. apply Hplain. now apply Pg. }
    assert (PidCR : Py.contains Py.CR
                      (pid_line m last_name first_name hl7_dob (gender_code gender))
                    = false) by (apply pid_line_contains; auto).
    assert (In1CR : Py.contains Py.CR (Py.join "|" parts) = false).
    { apply join_contains; [reflexivity|].
      apply Parts; [reflexivity|]. intros s P. now apply plain_inv in P. }
    destruct (in1_parts_head (Some insurance_name) (Some member_id) plan
                group_number) as (fields & E & Hfields).
    fold parts in E. rewrite !or_empty_some in E.
    rewrite convert_with_header.
    + change (CRs ++ Py.join "|" parts) with (String Py.CR (Py.join "|" parts)).
      rewrite split_app_sep by exact PidCR.
      rewrite (split_clean _ _ In1CR). cbn [map].
      rewrite pid_line_segment by assumption.
      unfold parse_segment. rewrite split_join.
      2: { rewrite E. discriminate. }
      2: { apply Parts; [reflexivity|]. intros s P. now apply plain_inv in P. }
      pose proof (pid_line_patient b m last_name first_name hl7_dob gender
                    Pm Pl Pf Pd) as HP.
      rewrite pid_line_segment in HP by assumption.
      pose proof (in1_parts_coverage b insurance_name member_id plan
                    group_number ("Patient/" ++ m) Nn Ni Ih) as HC.
      fold parts in HC. rewrite E in HC |- *. cbn [segment_of_fields] in HC |- *.
      rewrite convert_pid_in1. unfold assemble.
      rewrite HP. cbn [identifier generated_patient value].
      now rewrite HC.
    + apply header_body_no_CR.
    + apply header_body_no_LF.
    + rewrite !contains_app.
      rewrite pid_line_contains by auto.
      rewrite join_contains; [reflexivity|reflexivity|].
      apply Parts; [reflexivity|]. intros s P. now apply plain_inv in P.
    + do 2 apply keeps_end_app. rewrite E.
      apply keeps_end_join. intros l Hl.
      destruct Hfields as [->|(p & Ep & Np & ->)].
      * cbn [last] in Hl. subst l.
        unfold Py.or_empty.
        destruct group_number as [[|c g]|]; cbn [Py.truthy_opt Py.truthy]; auto.
        right. now apply Pg.
      * cbn [last] in Hl. subst l. right. now apply Pp.
    + unfold pid_line. discriminate.
Qed.

Lemma generated_coverage_round_trip_witness :
  exists text,
    Hl7Generator.generate_hl7_adt_message clock_2023 (Some "MRN1") "Smith"
      "John" "12/15/1980" "Male" (Some "BlueCross BlueShield") (Some "PPO123")
      (Some "Gold Plan PPO") (Some " GRP456789")
    = inr text
    /\ convert_hl7_to_fhir false text
       = inr {| patient :=
                  Some (generated_patient "MRN1" "Smith" "John" "Male"
                          (Some "1980-12-15"));
                coverage :=
                  Some {| coverage_resourceType := "Coverage";
                          status := "active";
                          beneficiary := {| reference := "Patient/MRN1" |};
                          payor := [ {| payor_display := "BlueCross BlueShield" |} ];
                          subscriberId := Some "PPO123";
                          class := Some [plan_class "GRP456789"] |} |}.
Proof.
  apply (generated_coverage_round_trip false clock_2023 (Some "MRN1") "Smith"
           "John" "12/15/1980" "Male" "19801215" "BlueCross BlueShield"
           "PPO123" (Some "Gold Plan PPO") (Some " GRP456789"));
    try reflexivity; try discriminate.
  - intros s E. injection E as <-. reflexivity.
  - intros s E. injection E as <-. split; reflexivity.
  - intros s E. injection E as <-. split; reflexivity.
Defined.

(** ** The message inspector *)

Lemma info_fold (pieces : list string) (types : list string) :
  fold_left
    (fun types segment =>
       if Py.truthy segment
       then (types ++ [Py.slice 0 3 segment])%list
       else types)
    pieces types
  = (types ++ map (Py.slice 0 3) (filter Py.truthy pieces))%list.
Proof.
  revert types. induction pieces as [|x xs IH]; intros types; simpl.
  - now rewrite app_nil_r.
  - rewrite IH. destruct (Py.truthy x); [|reflexivity].
    simpl. now rewrite <- app_assoc.
Qed.

Lemma slice_0_3_length (s : string) :
  s <> "" -> 1 <= String.length (Py.slice 0 3 s) <= 3.
Proof.
  destruct s as [|a [|b [|c [|d s]]]]; [congruence|..]; intros _; cbn; lia.
Qed.

(** X8. The message inspector counts one segment more than the text has
    carriage returns, so at least one, also for the empty text; it lists the
    first three characters of the non-empty pieces, in order, so the list is
    never longer than the count and each entry has one to three characters.
    Line feeds do not separate segments for it. *)
Theorem message_info_counts (hl7_message : string) :
  let info := parse_hl7_message_info hl7_message in
  segment_count info = S (count_char Py.CR hl7_message)
  /\ segments info
     = map (Py.slice 0 3) (filter Py.truthy (Py.split Py.CR hl7_message))
  /\ length (segments info) <= segment_count info
  /\ Forall (fun ty => 1 <= String.length ty <= 3) (segments info)
  /\ (Py.contains Py.CR hl7_message = false ->
      segment_count info = 1
      /\ segments info = if Py.truthy hl7_message
                         then [Py.slice 0 3 hl7_message] else []).
Proof.
  intros info. subst info. unfold parse_hl7_message_info.
  cbn [segment_count segments]. rewrite info_fold, app_nil_l.
  split; [apply split_length|]. split; [reflexivity|].
  split.
  { rewrite length_map. apply filter_length_le. }
  split.
  { apply Forall_forall. intros ty H.
    apply in_map_iff in H as (x & <- & Hx).
    apply filter_In in Hx as [_ Hx].
    apply slice_0_3_length. now destruct x. }
  intros H. rewrite (split_clean _ _ H). cbn [length filter].
  split; [reflexivity|]. now destruct (Py.truthy hl7_message).
Qed.

Lemma message_info_counts_witness :
  segment_count (parse_hl7_message_info "") = 1
  /\ segments (parse_hl7_message_info "") = [].
Proof.
  exact (proj2 (proj2 (proj2 (proj2 (message_info_counts "")))) eq_refl).
Defined.

Lemma header_line_no_CR (now : datetime) :
  Py.contains Py.CR
    ("MSH|^~\&|INTEGRATION|CLINIC|EMR|HOSPITAL|" ++ strftime_YmdHMS now
     ++ "||ADT^A04|" ++ ("MSG" ++ strftime_YmdHMS now) ++ "|P|2.5") = false.
Proof. now rewrite !contains_app, !strftime_no_CR. Qed.

(** X9. For arguments without carriage return and a well-formed date, the
    inspector finds in the generated message exactly the segments MSH and
    PID, followed by IN1 iff insurance name and member id are both given and
    non-empty. *)
Theorem generated_message_info
    (now : datetime) (mrn : option string)
    (last_name first_name dob gender hl7_dob : string)
    (insurance_name member_id plan group_number : option string) :
  (forall s, mrn = Some s -> Py.contains Py.CR s = false) ->
  Py.contains Py.CR last_name = false ->
  Py.contains Py.CR first_name = false ->
  Py.contains Py.CR dob = false ->
  (forall s, insurance_name = Some s -> Py.contains Py.CR s = false) ->
  (forall s, member_id = Some s -> Py.contains Py.CR s = false) ->
  (forall s, plan = Some s -> Py.contains Py.CR s = false) ->
  (forall s, group_number = Some s -> Py.contains Py.CR s = false) ->
  Hl7Generator.format_date_for_hl7 dob = inr hl7_dob ->
  exists text,
    Hl7Generator.generate_hl7_adt_message now mrn last_name first_name dob
      gender insurance_name member_id plan group_number = inr text
    /\ parse_hl7_message_info text
       = if Py.truthy_opt insurance_name && Py.truthy_opt member_id
         then {| segment_count := 3; segments := ["MSH"; "PID"; "IN1"] |}
         else {| segment_count := 2; segments := ["MSH"; "PID"] |}.
Proof.
  intros Hmrn Hl Hf Hdob Hn Hi Hp Hg Hfmt.
  assert (Hd : Py.contains Py.CR hl7_dob = false)
    by (eapply format_date_contains; eauto; discriminate).
  assert (Hm : Py.contains Py.CR (effective_mrn now mrn) = false).
  { unfold effective_mrn.
    destruct mrn as [[|c s]|]; cbn [Py.truthy_opt Py.truthy str_of].
    - now rewrite contains_app, strftime_no_CR.
    - now apply Hmrn.
    - now rewrite contains_app, strftime_no_CR. }
  assert (Pid : Py.contains Py.CR
                  (pid_line (effective_mrn now mrn) last_name first_name hl7_dob
                     (gender_code gender)) = false)
    by (apply pid_line_contains; auto).
  unfold Hl7Generator.generate_hl7_adt_message, Hl7Generator.segments_of.
  rewrite Hfmt. cbn [bind ret].
  eexists. split; [reflexivity|].
  assert (Emrn : (if negb (Py.truthy_opt mrn)
                  then "MRN" ++ strftime_YmdHMS now else str_of mrn)
                 = effective_mrn now mrn)
    by (unfold effective_mrn; now destruct (Py.truthy_opt mrn)).
  rewrite Emrn. fold (gender_code gender).
  change ("PID|1||" ++ effective_mrn now mrn ++ "^^^MRN||" ++ last_name ++ "^"
          ++ first_name ++ "||" ++ hl7_dob ++ "|" ++ gender_code gender)
    with (pid_line (effective_mrn now mrn) last_name first_name hl7_dob
            (gender_code gender)).
  unfold parse_hl7_message_info.
  destruct (Py.truthy_opt insurance_name && Py.truthy_opt member_id) eqn:Ins.
  - apply andb_true_iff in Ins as [In Im].
    apply truthy_opt_spec in In as (n & -> & Nn).
    apply truthy_opt_spec in Im as (i & -> & Ni).
    cbn [app].
    rewrite (split_join Py.CR).
    + destruct (in1_parts_head (Some n) (Some i) plan group_number)
        as (fields & E & _).
      rewrite E. reflexivity.
    + discriminate.
    + repeat constructor; [apply header_line_no_CR|exact Pid|].
      apply join_contains; [reflexivity|].
      apply in1_parts_contains; auto.
  - cbn [app].
    rewrite (split_join Py.CR).
    + reflexivity.
    + discriminate.
    + repeat constructor; [apply header_line_no_CR|exact Pid].
Qed.

Lemma generated_message_info_witness :
  exists text,
    Hl7Generator.generate_hl7_adt_message clock_2023 (Some "MRN1") "Smith"
      "John" "12/15/1980" "Male" (Some "BlueCross") (Some "PPO123") None None
    = inr text
    /\ parse_hl7_message_info text
       = {| segment_count := 3; segments := ["MSH"; "PID"; "IN1"] |}.
Proof.
  apply (generated_message_info clock_2023 (Some "MRN1") "Smith" "John"
           "12/15/1980" "Male" "19801215" (Some "BlueCross") (Some "PPO123")
           None None);
    try reflexivity;
    intros s E; try discriminate E; injection E as <-; reflexivity.
Defined.

(** ** Where the two generators part *)

Lemma str_length_app (a b : string) :
  String.length (a ++ b) = String.length a + String.length b.
Proof. induction a as [|d a IH]; simpl; [reflexivity|now rewrite IH]. Qed.

Lemma app_longer (s t : string) : t <> "" -> s <> s ++ t.
Proof.
  intros N E. apply (f_equal String.length) in E.
  rewrite str_length_app in E. destruct t; [congruence|simpl in E; lia].
Qed.

Ltac str_norm :=
  repeat (progress cbn [append Datatypes.app Py.join]
          || rewrite app_assoc_str
          || rewrite app_empty_r).

Lemma generators_compared
    (now : datetime) (mrn : option string)
    (last_name first_name dob gender : string)
    (ins : PatientService.InsuranceInfo) :
  length (Py.split "/" dob) = 3 ->
  exists text,
    by_generator now mrn last_name first_name dob gender ins = inr text
    /\ by_patient_service now mrn last_name first_name dob gender ins
       = inr (text
              ++ if Py.truthy (PatientService.name ins)
                    && Py.truthy (PatientService.memberID ins)
                 then if Py.truthy (PatientService.plan ins) then "" else "|"
                 else CRs ++ patient_service_in1 ins).
Proof.
  intros Hdob.
  unfold by_generator, by_patient_service,
         Hl7Generator.generate_hl7_adt_message, Hl7Generator.segments_of,
         PatientService.generate_hl7_message, patient_service_in1.
  cbn [PatientService.mrn PatientService.lastName PatientService.firstName
       PatientService.dob PatientService.gender PatientService.insurance].
  rewrite (patient_service_format_date _ Hdob).
  destruct (Py.split "/" dob) as [|m [|d [|y [|e rest]]]] eqn:E;
    try discriminate Hdob.
  rewrite (format_date_three _ _ _ _ E). cbn [bind ret].
  unfold Hl7Generator.in1_parts.
  destruct ins as [n i p g]. cbn [PatientService.name PatientService.memberID
                                  PatientService.plan PatientService.groupNumber].
  rewrite !or_empty_some. cbn [Py.truthy_opt].
  eexists. split; [reflexivity|].
  unfold ret.
  destruct (Py.truthy_opt mrn);
    destruct n as [|n0 n], i as [|i0 i], p as [|p0 p], g as [|g0 g];
    cbn [Py.truthy andb negb str_of];
    str_norm; reflexivity.
Qed.

(** X10. With an insurance and a three-part date both generators succeed,
    and they return the same text iff the insurance name, the member id and
    the plan are non-empty (the group number may be empty).  With an empty
    plan the patient service writes one more '|' at the end; with an empty
    name or member id it writes an IN1 segment where the generator writes
    none. *)
Theorem generators_agree_iff
    (now : datetime) (mrn : option string)
    (last_name first_name dob gender : string)
    (ins : PatientService.InsuranceInfo) :
  length (Py.split "/" dob) = 3 ->
  (by_generator now mrn last_name first_name dob gender ins
   = by_patient_service now mrn last_name first_name dob gender ins
   <-> PatientService.name ins <> "" /\ PatientService.memberID ins <> ""
       /\ PatientService.plan ins <> "")
  /\ exists text,
       by_generator now mrn last_name first_name dob gender ins = inr text
       /\ (PatientService.name ins <> "" -> PatientService.memberID ins <> "" ->
           PatientService.plan ins = "" ->
           by_patient_service now mrn last_name first_name dob gender ins
           = inr (text ++ "|"))
       /\ (PatientService.name ins = "" \/ PatientService.memberID ins = "" ->
           by_patient_service now mrn last_name first_name dob gender ins
           = inr (text ++ CRs ++ patient_service_in1 ins)).
Proof.
  intros Hdob.
  destruct (generators_compared now mrn last_name first_name dob gender ins Hdob)
    as (text & G & P).
  split.
  - rewrite G, P. split.
    + intros H. injection H as H.
      destruct (PatientService.name ins) as [|n0 n],
               (PatientService.memberID ins) as [|i0 i],
               (PatientService.plan ins) as [|p0 p];
        cbn [Py.truthy andb] in H;
        try (apply app_longer in H; [contradiction|discriminate]).
      repeat split; discriminate.
    + intros (Hn & Hi & Hp).
      destruct (PatientService.name ins) as [|n0 n]; [congruence|].
      destruct (PatientService.memberID ins) as [|i0 i]; [congruence|].
      destruct (PatientService.plan ins) as [|p0 p]; [congruence|].
      cbn [Py.truthy andb]. now rewrite app_empty_r.
  - exists text. split; [exact G|]. split.
    + intros Hn Hi Hp. rewrite P, Hp.
      destruct (PatientService.name ins) as [|n0 n]; [congruence|].
      destruct (PatientService.memberID ins) as [|i0 i]; [congruence|].
      reflexivity.
    + intros [H|H]; rewrite P, H; [reflexivity|].
      now rewrite andb_false_r.
Qed.

Lemma generators_agree_iff_witness :
  exists text,
    by_generator clock_2023 (Some "MRN1") "Smith" "John" "12/15/1980" "Male"
      {| PatientService.name := "BlueCross"; PatientService.memberID := "PPO123";
         PatientService.plan := ""; PatientService.groupNumber := "GRP1" |}
    = inr text
    /\ by_patient_service clock_2023 (Some "MRN1") "Smith" "John" "12/15/1980"
         "Male"
         {| PatientService.name := "BlueCross"; PatientService.memberID := "PPO123";
            PatientService.plan := ""; PatientService.groupNumber := "GRP1" |}
       = inr (text ++ "|").
Proof.
  destruct (proj2 (generators_agree_iff clock_2023 (Some "MRN1") "Smith" "John"
                     "12/15/1980" "Male"
                     {| PatientService.name := "BlueCross";
                        PatientService.memberID := "PPO123";
                        PatientService.plan := "";
                        PatientService.groupNumber := "GRP1" |} eq_refl))
    as (text & G & A & _).
  exists text. split; [exact G|].
  apply A; [discriminate|discriminate|reflexivity].
Defined.

(** X11. The date conversion of the patient service succeeds exactly when
    the one of the generator does, with the same result; where the generator
    raises a [ValueError], the patient service raises an [HTTPException] of
    status 400 with the same message, and [generate_hl7_message] fails with
    it. *)
Theorem patient_service_date (date_str : string) :
  (forall r, PatientService.format_date_for_hl7 date_str = inr r
             <-> Hl7Generator.format_date_for_hl7 date_str = inr r)
  /\ (forall msg, Hl7Generator.format_date_for_hl7 date_str = inl (ValueError msg)
                  <-> PatientService.format_date_for_hl7 date_str
                      = inl (HTTPException 400 msg))
  /\ (length (Py.split "/" date_str) <> 3 ->
      forall now mrn last_name first_name gender ins,
        PatientService.generate_hl7_message now
          {| PatientService.mrn := mrn;
             PatientService.lastName := last_name;
             PatientService.firstName := first_name;
             PatientService.dob := date_str;
             PatientService.gender := gender;
             PatientService.insurance := ins |}
        = inl (HTTPException 400
                 ("Invalid date format. Expected MM/DD/YYYY, got " ++ date_str))).
Proof.
  unfold PatientService.generate_hl7_message,
         PatientService.format_date_for_hl7, Hl7Generator.format_date_for_hl7.
  cbn [PatientService.dob].
  destruct (Py.split "/" date_str) as [|m [|d [|y [|e rest]]]];
    cbn [raise ret bind length];
    (split; [|split]);
    try (intros r; split; intros H; (discriminate H || exact H));
    try (intros msg; split; intros H; injection H as <-; reflexivity);
    try (intros msg; split; intros H; discriminate H);
    try (intros H; now elim H);
    try (intros _; reflexivity).
Qed.

Lemma patient_service_date_witness :
  PatientService.generate_hl7_message clock_2023
    {| PatientService.mrn := None;
       PatientService.lastName := "Smith";
       PatientService.firstName := "John";
       PatientService.dob := "1980-12-15";
       PatientService.gender := "Male";
       PatientService.insurance := None |}
  = inl (HTTPException 400
           "Invalid date format. Expected MM/DD/YYYY, got 1980-12-15").
Proof.
  apply (proj2 (proj2 (patient_service_date "1980-12-15"))).
  simpl. lia.
Defined.

(** * The token store *)

Lemma store_set_same (store : TokenStore) (key : string) (data : TokenData) :
  store_set store key data key = Some data.
Proof. unfold store_set. now rewrite String.eqb_refl. Qed.

Lemma store_set_other (store : TokenStore) (key other : string) (data : TokenData) :
  other <> key -> store_set store key data other = store other.
Proof.
  intros H. unfold store_set. now apply String.eqb_neq in H as ->.
Qed.

Lemma store_del_same (store : TokenStore) (key : string) :
  store_del store key key = None.
Proof. unfold store_del. now rewrite String.eqb_refl. Qed.

Lemma store_del_other (store : TokenStore) (key other : string) :
  other <> key -> store_del store key other = store other.
Proof.
  intros H. unfold store_del. now apply String.eqb_neq in H as ->.
Qed.

(** X12. A token just created is accepted exactly up to 24 hours after the
    second clock reading of its creation, whatever the store held before
    (an entry of the same token is replaced); accepting it leaves the store
    as it is, and [verify_token] then returns the token, and raises the 401
    error otherwise.  Creating a token does not touch the other tokens. *)
Theorem created_token_lifetime
    (hours_24 : nat) (token : string) (now1 now2 now : nat)
    (token_store : TokenStore) :
  let created := create_access_token hours_24 token now1 now2 token_store in
  fst created = token
  /\ fst (validate_token token now (snd created)) = (now <=? now2 + hours_24)
  /\ (now <= now2 + hours_24 ->
      validate_token token now (snd created) = (true, snd created)
      /\ verify_token token now (snd created) = (inr token, snd created))
  /\ (now2 + hours_24 < now ->
      fst (verify_token token now (snd created))
      = inl (HTTPException 401 "Invalid or expired token"))
  /\ (forall other, other <> token -> snd created other = token_store other).
Proof.
  intros created. subst created. unfold create_access_token. cbn [fst snd].
  unfold verify_token, validate_token. rewrite store_set_same. cbn [expires_at].
  split; [reflexivity|].
  split.
  { destruct (Nat.ltb_spec (now2 + hours_24) now) as [L|L]; cbn [fst];
      symmetry; [apply Nat.leb_gt|apply Nat.leb_le]; exact L. }
  split.
  { intros H. apply Nat.ltb_ge in H. rewrite H. split; reflexivity. }
  split.
  { intros H. apply Nat.ltb_lt in H. rewrite H. reflexivity. }
  intros other H. now apply store_set_other.
Qed.

Lemma created_token_lifetime_witness :
  validate_token "tok" 100 (snd (create_access_token 24 "tok" 90 91 empty_store))
  = (true, snd (create_access_token 24 "tok" 90 91 empty_store)).
Proof.
  apply (proj1 (proj2 (proj2 (created_token_lifetime 24 "tok" 90 91 100
                                empty_store)))).
  simpl. lia.
Defined.

(** X13. [validate_token] rejects a token that is not in the store and
    leaves the store as it is.  Whenever it rejects a token, the token is
    absent afterwards, so that every later validation of it fails, at any
    clock reading, until it is created again: an expired token does not
    come back when the clock is set back.  When it accepts, the store is
    unchanged; in every case the entries of the other tokens are
    untouched. *)
Theorem validate_token_store (token : string) (now : nat) (token_store : TokenStore) :
  let result := validate_token token now token_store in
  (token_store token = None -> result = (false, token_store))
  /\ (fst result = true <->
      exists data, token_store token = Some data /\ now <= expires_at data)
  /\ (fst result = true -> snd result = token_store)
  /\ (fst result = false ->
      snd result token = None
      /\ forall later, fst (validate_token token later (snd result)) = false)
  /\ (forall other, other <> token -> snd result other = token_store other).
Proof.
  intros result. subst result. unfold validate_token.
  destruct (token_store token) as [data|] eqn:E.
  - destruct (Nat.ltb_spec (expires_at data) now) as [L|L]; cbn [fst snd].
    + split; [discriminate|]. split.
      { split; [discriminate|].
        intros (d & H & Hd). injection H as <-. lia. }
      split; [discriminate|]. split.
      { intros _. rewrite store_del_same. split; reflexivity. }
      intros other H. now apply store_del_other.
    + split; [discriminate|]. split.
      { split; [|reflexivity]. intros _. now exists data. }
      split; [reflexivity|]. split; [discriminate|]. reflexivity.
  - cbn [fst snd]. split; [reflexivity|]. split.
    { split; [discriminate|]. intros (d & H & _). discriminate. }
    split; [discriminate|]. split.
    { intros _. rewrite E. split; reflexivity. }
    reflexivity.
Qed.

Lemma validate_token_store_witness :
  fst (validate_token "tok" 10
         (snd (validate_token "tok" 200
                 (snd (create_access_token 24 "tok" 90 91 empty_store)))))
  = false.
Proof.
  exact (proj2 (proj1 (proj2 (proj2 (proj2
           (validate_token_store "tok" 200
              (snd (create_access_token 24 "tok" 90 91 empty_store)))))) eq_refl)
           10).
Defined.

(** * Looking up a patient by MRN *)

Lemma has_mrn_spec (mrn : string) (patient : JsonPatient) :
  has_mrn mrn patient = true
  <-> exists identifier,
        In identifier (json_identifier patient)
        /\ json_value identifier = Some mrn.
Proof.
  unfold has_mrn. rewrite existsb_exists. unfold value_is.
  split; intros (i & Hi & H); exists i; (split; [exact Hi|]).
  - destruct (json_value i) as [v|]; [|discriminate].
    now apply String.eqb_eq in H as ->.
  - rewrite H. apply String.eqb_refl.
Qed.

Lemma scan_entries_some (mrn : string) (entries : list JsonEntry)
    (patient : JsonPatient) :
  scan_entries mrn entries = Some patient
  <-> exists before entry after,
        entries = (before ++ entry :: after)%list
        /\ json_resource entry = patient
        /\ has_mrn mrn patient = true
        /\ Forall (fun e => has_mrn mrn (json_resource e) = false) before.
Proof.
  split.
  - induction entries as [|e entries IH]; [discriminate|].
    simpl. destruct (has_mrn mrn (json_resource e)) eqn:E.
    + intros H. injection H as <-.
      exists [], e, entries. repeat split; [exact E|constructor].
    + intros H. destruct (IH H) as (before & entry & after & -> & Hr & Hm & F).
      exists (e :: before), entry, after. repeat split; try assumption.
      now constructor.
  - intros (before & entry & after & -> & <- & Hm & F).
    induction F as [|e before He F IH]; simpl.
    + now rewrite Hm.
    + now rewrite He.
Qed.

Lemma scan_entries_none (mrn : string) (entries : list JsonEntry) :
  scan_entries mrn entries = None
  <-> Forall (fun e => has_mrn mrn (json_resource e) = false) entries.
Proof.
  induction entries as [|e entries IH]; simpl.
  - split; [constructor|reflexivity].
  - destruct (has_mrn mrn (json_resource e)) eqn:E.
    + split; [discriminate|]. intros F. inversion F; congruence.
    + rewrite IH. split; [now constructor|]. intros F. now inversion F.
Qed.

Lemma truthy_list_scan (mrn : string) (entries : list JsonEntry) :
  (if truthy_list entries then scan_entries mrn entries else None)
  = scan_entries mrn entries.
Proof. now destruct entries. Qed.

(** X14. [search_patient_by_mrn] returns a patient only from an answer of
    status 200, and then the resource of the first entry, in the order of
    the bundle, that has an identifier whose value is the MRN; it returns
    nothing iff the status is not 200 or no entry has such an identifier. *)
Theorem search_first_match (mrn : string) (response : SearchResponse) :
  (forall patient,
     search_patient_by_mrn mrn response = Some patient
     <-> search_status response = 200
         /\ exists before entry after,
              json_entry (search_json response) = (before ++ entry :: after)%list
              /\ json_resource entry = patient
              /\ (exists identifier,
                    In identifier (json_identifier patient)
                    /\ json_value identifier = Some mrn)
              /\ Forall (fun e => has_mrn mrn (json_resource e) = false) before)
  /\ (search_patient_by_mrn mrn response = None
      <-> search_status response <> 200
          \/ Forall (fun e => has_mrn mrn (json_resource e) = false)
               (json_entry (search_json response))).
Proof.
  unfold search_patient_by_mrn. rewrite truthy_list_scan.
  destruct (Nat.eqb_spec (search_status response) 200) as [E|E].
  - split.
    + intros patient. rewrite scan_entries_some. split.
      * intros (before & entry & after & H1 & H2 & H3 & H4).
        split; [exact E|]. exists before, entry, after.
        repeat split; try assumption. now apply has_mrn_spec.
      * intros (_ & before & entry & after & H1 & H2 & H3 & H4).
        exists before, entry, after.
        repeat split; try assumption. now apply has_mrn_spec.
    + rewrite scan_entries_none. split; [now right|].
      intros [H|H]; [contradiction|exact H].
  - split.
    + intros patient. split; [discriminate|]. intros [H _]. contradiction.
    + split; [now left|reflexivity].
Qed.

(** X15. [check_patient_exists] finds nothing for an empty MRN and nothing
    in a bundle whose total is 0 or missing, even when an entry matches;
    for a non-empty MRN and a positive total it finds what
    [search_patient_by_mrn] finds in the same answer. *)
Theorem check_patient_exists_spec (mrn : string) (response : SearchResponse) :
  check_patient_exists mrn response
  = (if Py.truthy mrn && (0 <? json_total (search_json response))
     then search_patient_by_mrn mrn response
     else None)
  /\ check_patient_exists "" response = None
  /\ (json_total (search_json response) = 0 ->
      check_patient_exists mrn response = None)
  /\ (mrn <> "" -> 0 < json_total (search_json response) ->
      check_patient_exists mrn response = search_patient_by_mrn mrn response).
Proof.
  assert (G : check_patient_exists mrn response
              = (if Py.truthy mrn && (0 <? json_total (search_json response))
                 then search_patient_by_mrn mrn response
                 else None)).
  { unfold check_patient_exists, search_patient_by_mrn.
    destruct (Py.truthy mrn), (search_status response =? 200),
             (0 <? json_total (search_json response)); reflexivity. }
  split; [exact G|]. split; [reflexivity|]. split.
  - intros H. rewrite G, H. now rewrite andb_false_r.
  - intros Hm Ht. rewrite G.
    apply Nat.ltb_lt in Ht. rewrite Ht.
    destruct mrn; [congruence|reflexivity].
Qed.

Lemma check_patient_exists_spec_witness :
  check_patient_exists "MRN1"
    {| search_status := 200;
       search_json :=
         {| json_total := 0;
            json_entry :=
              [ {| json_resource :=
                     {| json_id := "p1";
                        json_identifier := [ {| json_value := Some "MRN1" |} ] |} |} ] |} |}
  = None.
Proof.
  apply (proj1 (proj2 (proj2 (check_patient_exists_spec "MRN1" _)))).
  reflexivity.
Defined.

(** * The inbound endpoint *)

Lemma receive_accepted (b : bool) (all_patients : SearchResponse)
    (post_patient : Patient -> PostResponse)
    (post_coverage : Coverage -> PostResponse)
    (hl7_message : string) (r : Resources) (p : Patient) :
  hl7_message <> "" ->
  convert_hl7_to_fhir b hl7_message = inr r ->
  patient r = Some p ->
  receive_hl7_message b all_patients post_patient post_coverage hl7_message
  = let log := if Py.truthy_opt (first_mrn p) then [GetPatients] else [] in
    match existing_patient all_patients p with
    | Some existing =>
        handle_coverage post_coverage (coverage r) "found" (json_id existing) log
    | None =>
        match create_fhir_resource "Patient" (post_patient p) with
        | inl e => (inl e, (log ++ [PostPatient p])%list)
        | inr created_id =>
            handle_coverage post_coverage (coverage r) "created" created_id
              (log ++ [PostPatient p])%list
        end
    end.
Proof.
  intros Hm Hc Hp. unfold receive_hl7_message.
  destruct hl7_message; [congruence|]. cbn [Py.truthy negb].
  rewrite Hc, Hp. unfold existing_patient, first_mrn.
  destruct (Py.truthy_opt _); reflexivity.
Qed.

Lemma handle_coverage_log (post_coverage : Coverage -> PostResponse)
    (fhir_coverage : option Coverage) (action patient_id : string)
    (log : list Request) :
  snd (handle_coverage post_coverage fhir_coverage action patient_id log)
  = (log ++ match fhir_coverage with
            | Some c => [PostCoverage (set_reference c ("Patient/" ++ patient_id))]
            | None => []
            end)%list.
Proof.
  unfold handle_coverage. destruct fhir_coverage as [c|].
  - now destruct (create_fhir_resource _ _).
  - cbn [snd]. now rewrite app_nil_r.
Qed.

Lemma handle_coverage_result (post_coverage : Coverage -> PostResponse)
    (fhir_coverage : option Coverage) (action patient_id : string)
    (log : list Request) (s : Summary) :
  fst (handle_coverage post_coverage fhir_coverage action patient_id log) = inr s ->
  patient_action s = action
  /\ patient_id_of s = patient_id
  /\ match fhir_coverage with
     | Some c =>
         coverage_action s = Some "created"
         /\ create_fhir_resource "Coverage"
              (post_coverage (set_reference c ("Patient/" ++ patient_id)))
            = inr (match coverage_id_of s with Some i => i | None => "" end)
         /\ coverage_id_of s <> None
     | None => coverage_action s = None /\ coverage_id_of s = None
     end.
Proof.
  unfold handle_coverage. destruct fhir_coverage as [c|].
  - destruct (create_fhir_resource _ _) as [e|i]; cbn [fst]; [discriminate|].
    intros H. injection H as <-. cbn. repeat split. discriminate.
  - cbn [fst]. intros H. injection H as <-. cbn. repeat split.
Qed.

(** X16. The endpoint rejects with status 400, and sends nothing to the
    FHIR server, an empty body, a body that the converter cannot parse and a
    message without PID segment; and whenever it has sent nothing, it has
    rejected the request with status 400. *)
Theorem endpoint_rejections (b : bool) (all_patients : SearchResponse)
    (post_patient : Patient -> PostResponse)
    (post_coverage : Coverage -> PostResponse)
    (hl7_message : string) :
  let answer := receive_hl7_message b all_patients post_patient post_coverage
                  hl7_message in
  (hl7_message = "" ->
   answer = (inl (HTTPException 400 "Empty HL7 message"), []))
  /\ (forall e, hl7_message <> "" ->
        convert_hl7_to_fhir b hl7_message = inl e ->
        answer = (inl (HTTPException 400
                         ("Failed to parse HL7 message: " ++ exn_str e)), []))
  /\ (forall message, hl7_message <> "" ->
        parse_hl7_message hl7_message = inr message ->
        has_segment "PID" message = false ->
        answer = (inl (HTTPException 400
                         "No patient information found in HL7 message"), []))
  /\ (snd answer = [] -> exists detail, fst answer = inl (HTTPException 400 detail)).
Proof.
  intros answer. subst answer.
  split; [now intros ->|]. split.
  { intros e Hm Hc. unfold receive_hl7_message.
    destruct hl7_message; [congruence|]. cbn [Py.truthy negb]. now rewrite Hc. }
  split.
  { intros message Hm Hparse Hpid. unfold receive_hl7_message.
    destruct hl7_message; [congruence|]. cbn [Py.truthy negb].
    unfold convert_hl7_to_fhir. rewrite Hparse. cbn [bind ret].
    rewrite convert_message_last, assemble_patient.
    rewrite last_segment_has in Hpid.
    now destruct (last_segment "PID" message). }
  destruct hl7_message as [|c0 rest] eqn:Em; [intros _; now eexists|].
  destruct (convert_hl7_to_fhir b (String c0 rest)) as [e|r] eqn:Ec.
  { intros _. unfold receive_hl7_message. cbn [Py.truthy negb].
    rewrite Ec. now eexists. }
  destruct (patient r) as [p|] eqn:Ep.
  2: { intros _. unfold receive_hl7_message. cbn [Py.truthy negb].
       rewrite Ec, Ep. now eexists. }
  rewrite (receive_accepted b all_patients post_patient post_coverage
             (String c0 rest) r p) by (assumption || discriminate).
  cbv zeta.
  destruct (existing_patient all_patients p) as [e|] eqn:Ee.
  - rewrite handle_coverage_log.
    unfold existing_patient in Ee.
    destruct (Py.truthy_opt (first_mrn p)); [|discriminate].
    intros H. discriminate H.
  - destruct (create_fhir_resource "Patient" (post_patient p)).
    + cbn [snd]. intros H. now apply app_eq_nil in H as [_ H].
    + rewrite handle_coverage_log. intros H.
      apply app_eq_nil in H as [H _]. now apply app_eq_nil in H as [_ H].
Qed.

Lemma endpoint_rejections_witness :
  receive_hl7_message true
    {| search_status := 200;
       search_json := {| json_total := 0; json_entry := [] |} |}
    (fun _ => {| post_status := 201; post_text := ""; post_id := "p1" |})
    (fun _ => {| post_status := 201; post_text := ""; post_id := "c1" |})
    ""
  = (inl (HTTPException 400 "Empty HL7 message"), []).
Proof.
  exact (proj1 (endpoint_rejections true _ _ _ "") eq_refl).
Defined.

Ltac log_cases :=
  cbn [fst snd In app] in *; rewrite ?in_app_iff in *; cbn [In] in *;
  intuition (try discriminate; try congruence).

(** X17. For a message that converts to a Patient, the endpoint asks the
    server for the patients iff the first identifier of the Patient has a
    non-empty value.  It creates a Patient, the converted one, exactly when
    no patient with that MRN is found; a found patient is reported as
    "found" with the id of the server, a created one as "created" with the
    id of the answer.  When the creation of the Patient fails, its error is
    the result and no Coverage is sent. *)
Theorem endpoint_patient_step (b : bool) (all_patients : SearchResponse)
    (post_patient : Patient -> PostResponse)
    (post_coverage : Coverage -> PostResponse)
    (hl7_message : string) (r : Resources) (p : Patient) :
  hl7_message <> "" ->
  convert_hl7_to_fhir b hl7_message = inr r ->
  patient r = Some p ->
  let answer := receive_hl7_message b all_patients post_patient post_coverage
                  hl7_message in
  let found := existing_patient all_patients p in
  (In GetPatients (snd answer) <-> Py.truthy_opt (first_mrn p) = true)
  /\ (In (PostPatient p) (snd answer) <-> found = None)
  /\ (forall p', In (PostPatient p') (snd answer) -> p' = p)
  /\ (forall e s, found = Some e -> fst answer = inr s ->
        patient_action s = "found" /\ patient_id_of s = json_id e)
  /\ (forall err, found = None ->
        create_fhir_resource "Patient" (post_patient p) = inl err ->
        fst answer = inl err
        /\ forall c, ~ In (PostCoverage c) (snd answer))
  /\ (forall created_id s, found = None ->
        create_fhir_resource "Patient" (post_patient p) = inr created_id ->
        fst answer = inr s ->
        patient_action s = "created" /\ patient_id_of s = created_id).
Proof.
  intros Hm Hc Hp answer found. subst answer found.
  rewrite (receive_accepted b all_patients post_patient post_coverage
             hl7_message r p Hm Hc Hp).
  cbv zeta.
  destruct (existing_patient all_patients p) as [e|] eqn:Ee.
  - assert (T : Py.truthy_opt (first_mrn p) = true).
    { unfold existing_patient in Ee.
      now destruct (Py.truthy_opt (first_mrn p)). }
    rewrite T, handle_coverage_log.
    split; [|split; [|split; [|split; [|split]]]].
    + destruct (coverage r); log_cases.
    + destruct (coverage r); log_cases.
    + intros p'. destruct (coverage r); log_cases.
    + intros e0 s H H0. injection H as <-.
      apply handle_coverage_result in H0. tauto.
    + discriminate.
    + discriminate.
  - destruct (create_fhir_resource "Patient" (post_patient p)) as [err|id] eqn:Ep.
    + split; [|split; [|split; [|split; [|split]]]].
      * destruct (Py.truthy_opt (first_mrn p)); log_cases.
      * destruct (Py.truthy_opt (first_mrn p)); log_cases.
      * intros p'. destruct (Py.truthy_opt (first_mrn p)); log_cases.
      * discriminate.
      * intros err0 _ H. injection H as <-. split; [reflexivity|].
        intros c. destruct (Py.truthy_opt (first_mrn p)); log_cases.
      * discriminate.
    + rewrite handle_coverage_log.
      split; [|split; [|split; [|split; [|split]]]].
      * destruct (Py.truthy_opt (first_mrn p)), (coverage r); log_cases.
      * destruct (Py.truthy_opt (first_mrn p)), (coverage r); log_cases.
      * intros p'.
        destruct (Py.truthy_opt (first_mrn p)), (coverage r); log_cases.
      * discriminate.
      * discriminate.
      * intros created_id s _ H H0. injection H as <-.
        apply handle_coverage_result in H0. tauto.
Qed.

Lemma endpoint_patient_step_witness :
  patient_action
    {| patient_action := "found"; patient_id_of := "srv-1";
       coverage_action := Some "created"; coverage_id_of := Some "c1" |}
  = "found"
  /\ patient_id_of
       {| patient_action := "found"; patient_id_of := "srv-1";
          coverage_action := Some "created"; coverage_id_of := Some "c1" |}
     = json_id {| json_id := "srv-1";
                  json_identifier := [ {| json_value := Some "MRN123456" |} ] |}.
Proof.
  refine (proj1 (proj2 (proj2 (proj2
            (endpoint_patient_step true server_patients
               (fun _ => server_creates "p1") (fun _ => server_creates "c1")
               scenario_text
               {| patient := Some patient_MRN123456;
                  coverage := Some coverage_PPO123 |}
               patient_MRN123456 _ _ _)))) _ _ _ _).
  - discriminate.
  - vm_compute. reflexivity.
  - reflexivity.
  - vm_compute. reflexivity.
  - vm_compute. reflexivity.
Defined.

(** X18. Every Coverage that the endpoint sends is the converted Coverage
    with its beneficiary reference replaced by "Patient/" and the id that
    the server gave the patient, found or just created; nothing else of it
    is changed, and it is sent after the patient is settled.  A successful
    answer reports that same patient id, and reports a coverage iff the
    message had one. *)
Theorem endpoint_coverage_step (b : bool) (all_patients : SearchResponse)
    (post_patient : Patient -> PostResponse)
    (post_coverage : Coverage -> PostResponse)
    (hl7_message : string) (r : Resources) (p : Patient) :
  hl7_message <> "" ->
  convert_hl7_to_fhir b hl7_message = inr r ->
  patient r = Some p ->
  let answer := receive_hl7_message b all_patients post_patient post_coverage
                  hl7_message in
  (forall sent, In (PostCoverage sent) (snd answer) ->
     exists c server_id,
       coverage r = Some c
       /\ sent = set_reference c ("Patient/" ++ server_id)
       /\ last (snd answer) GetPatients = PostCoverage sent
       /\ match existing_patient all_patients p with
          | Some e => server_id = json_id e
          | None => create_fhir_resource "Patient" (post_patient p)
                    = inr server_id
          end)
  /\ (forall s, fst answer = inr s ->
        match coverage r with
        | Some c =>
            In (PostCoverage (set_reference c ("Patient/" ++ patient_id_of s)))
               (snd answer)
            /\ coverage_action s = Some "created"
            /\ coverage_id_of s <> None
        | None =>
            coverage_action s = None /\ coverage_id_of s = None
            /\ forall sent, ~ In (PostCoverage sent) (snd answer)
        end).
Proof.
  intros Hm Hc Hp answer. subst answer.
  rewrite (receive_accepted b all_patients post_patient post_coverage
             hl7_message r p Hm Hc Hp).
  cbv zeta.
  destruct (existing_patient all_patients p) as [e|] eqn:Ee.
  - rewrite handle_coverage_log. split.
    + intros sent H. destruct (coverage r) as [c|].
      * exists c, (json_id e). rewrite last_last.
        destruct (Py.truthy_opt (first_mrn p)); log_cases.
      * destruct (Py.truthy_opt (first_mrn p)); log_cases.
    + intros s H. apply handle_coverage_result in H as (_ & -> & H).
      destruct (coverage r) as [c|].
      * split; [apply in_app_iff; right; now left|tauto].
      * split; [tauto|]. split; [tauto|]. intros sent.
        destruct (Py.truthy_opt (first_mrn p)); log_cases.
  - destruct (create_fhir_resource "Patient" (post_patient p)) as [err|id].
    + split.
      * intros sent. destruct (Py.truthy_opt (first_mrn p)); log_cases.
      * discriminate.
    + rewrite handle_coverage_log. split.
      * intros sent H. destruct (coverage r) as [c|].
        -- exists c, id. rewrite last_last.
           destruct (Py.truthy_opt (first_mrn p)); log_cases.
        -- destruct (Py.truthy_opt (first_mrn p)); log_cases.
      * intros s H. apply handle_coverage_result in H as (_ & -> & H).
        destruct (coverage r) as [c|].
        -- split; [apply in_app_iff; right; now left|tauto].
        -- split; [tauto|]. split; [tauto|]. intros sent.
           destruct (Py.truthy_opt (first_mrn p)); log_cases.
Qed.

Lemma endpoint_coverage_step_witness :
  In (PostCoverage (set_reference coverage_PPO123 "Patient/srv-1"))
     (snd (receive_hl7_message true server_patients
             (fun _ => server_creates "p1") (fun _ => server_creates "c1")
             scenario_text)).
Proof.
  refine (proj1 (proj2
            (endpoint_coverage_step true server_patients
               (fun _ => server_creates "p1") (fun _ => server_creates "c1")
               scenario_text
               {| patient := Some patient_MRN123456;
                  coverage := Some coverage_PPO123 |}
               patient_MRN123456 _ _ _)
            {| patient_action := "found"; patient_id_of := "srv-1";
               coverage_action := Some "created"; coverage_id_of := Some "c1" |}
            _)).
  - discriminate.
  - vm_compute. reflexivity.
  - reflexivity.
  - vm_compute. reflexivity.
Defined.

(** * From the patient service to the inbound endpoint *)

Lemma format_date_parts (dob hl7_dob : string) :
  Hl7Generator.format_date_for_hl7 dob = inr hl7_dob ->
  length (Py.split "/" dob) = 3.
Proof.
  intros H.
  destruct (Nat.eq_dec (length (Py.split "/" dob)) 3) as [E|E]; [exact E|].
  rewrite (format_date_other _ E) in H. discriminate.
Qed.

(** The text that [generate_hl7_message] returns without insurance. *)
Lemma patient_service_text (now : datetime) (mrn : option string)
    (last_name first_name dob gender hl7_dob : string) :
  Hl7Generator.format_date_for_hl7 dob = inr hl7_dob ->
  PatientService.generate_hl7_message now
    {| PatientService.mrn := mrn;
       PatientService.lastName := last_name;
       PatientService.firstName := first_name;
       PatientService.dob := dob;
       PatientService.gender := gender;
       PatientService.insurance := None |}
  = inr (("MSH|" ++ header_body (strftime_YmdHMS now)) ++ CRs
         ++ pid_line (effective_mrn now mrn) last_name first_name hl7_dob
              (gender_code gender)).
Proof.
  intros Hfmt. unfold PatientService.generate_hl7_message.
  cbn [PatientService.mrn PatientService.lastName PatientService.firstName
       PatientService.dob PatientService.gender PatientService.insurance].
  rewrite (patient_service_format_date _ (format_date_parts _ _ Hfmt)), Hfmt.
  unfold effective_mrn, pid_line, gender_code.
  destruct (Py.truthy_opt mrn); reflexivity.
Qed.

(** The conversion of a header followed by the PID segment of the
    generators. *)
Lemma pid_message_conversion (b : bool) (now : datetime)
    (mrn last_name first_name hl7_dob gender : string) :
  plain mrn = true -> plain last_name = true -> plain first_name = true ->
  plain hl7_dob = true ->
  convert_hl7_to_fhir b
    (("MSH|" ++ header_body (strftime_YmdHMS now)) ++ CRs
     ++ pid_line mrn last_name first_name hl7_dob (gender_code gender))
  = inr {| patient :=
             Some (generated_patient mrn last_name first_name gender
                     (parse_hl7_date hl7_dob));
           coverage := None |}.
Proof.
  intros Pm Pl Pf Pd.
  pose proof (plain_inv _ Pm) as (Mb & _ & Mc & Ml).
  pose proof (plain_inv _ Pl) as (Lb & _ & Lc & Ll).
  pose proof (plain_inv _ Pf) as (Fb & _ & Fc & Fl).
  pose proof (plain_inv _ Pd) as (Db & _ & Dc & Dl).
  assert (NoCR : Py.contains Py.CR
                   (pid_line mrn last_name first_name hl7_dob
                      (gender_code gender)) = false)
    by (apply pid_line_contains; auto).
  rewrite convert_with_header.
  - rewrite (split_clean _ _ NoCR). cbn [map].
    rewrite <- (pid_line_patient b) by assumption.
    rewrite pid_line_segment by assumption.
    now rewrite convert_single_pid.
  - apply header_body_no_CR.
  - apply header_body_no_LF.
  - apply pid_line_contains; auto.
  - unfold pid_line. repeat apply keeps_end_app. apply keeps_end_gender_code.
  - unfold pid_line. discriminate.
Qed.

(** X19. The message that the patient service generates for patient data
    without insurance, whose texts have no '|', '^' and line ends, is never
    rejected by the inbound endpoint: the endpoint looks up the MRN of the
    message (the supplied one, or "MRN" and the timestamp); when the server
    has a patient with it, the answer is "found" with the id of the server
    and nothing is created; otherwise the Patient read from the message,
    with that MRN, the names, the gender and the birth date, is sent for
    creation, and the answer is "created" with the new id, or the error of
    the server. *)
Theorem patient_service_to_endpoint
    (b : bool) (now : datetime) (all_patients : SearchResponse)
    (post_patient : Patient -> PostResponse)
    (post_coverage : Coverage -> PostResponse)
    (mrn : option string) (last_name first_name dob gender hl7_dob : string) :
  (forall s, mrn = Some s -> plain s = true) ->
  plain last_name = true ->
  plain first_name = true ->
  plain dob = true ->
  Hl7Generator.format_date_for_hl7 dob = inr hl7_dob ->
  exists text,
    PatientService.generate_hl7_message now
      {| PatientService.mrn := mrn;
         PatientService.lastName := last_name;
         PatientService.firstName := first_name;
         PatientService.dob := dob;
         PatientService.gender := gender;
         PatientService.insurance := None |}
    = inr text
    /\ let m := effective_mrn now mrn in
       let p := generated_patient m last_name first_name gender
                  (parse_hl7_date hl7_dob) in
       receive_hl7_message b all_patients post_patient post_coverage text
       = match search_patient_by_mrn m all_patients with
         | Some existing =>
             (inr {| patient_action := "found";
                     patient_id_of := json_id existing;
                     coverage_action := None;
                     coverage_id_of := None |},
              [GetPatients])
         | None =>
             (match create_fhir_resource "Patient" (post_patient p) with
              | inl e => inl e
              | inr created_id =>
                  inr {| patient_action := "created";
                         patient_id_of := created_id;
                         coverage_action := None;
                         coverage_id_of := None |}
              end,
              [GetPatients; PostPatient p])
         end.
Proof.
  intros Hmrn Pl Pf Pdob Hfmt.
  destruct (effective_mrn_plain now mrn Hmrn) as [Pm Nm].
  pose proof (format_date_plain _ _ Pdob Hfmt) as Pd.
  exists (("MSH|" ++ header_body (strftime_YmdHMS now)) ++ CRs
          ++ pid_line (effective_mrn now mrn) last_name first_name hl7_dob
               (gender_code gender)).
  split; [exact (patient_service_text now mrn last_name first_name dob gender
                   hl7_dob Hfmt)|].
  cbv zeta.
  rewrite (receive_accepted b all_patients post_patient post_coverage _
             {| patient :=
                  Some (generated_patient (effective_mrn now mrn) last_name
                          first_name gender (parse_hl7_date hl7_dob));
                coverage := None |}
             (generated_patient (effective_mrn now mrn) last_name first_name
                gender (parse_hl7_date hl7_dob))).
  - unfold existing_patient, first_mrn.
    cbn [identifier generated_patient value coverage str_of Py.truthy_opt].
    destruct (effective_mrn now mrn) as [|c0 m0] eqn:Em; [congruence|].
    cbn [Py.truthy]. cbv zeta.
    destruct (search_patient_by_mrn (String c0 m0) all_patients);
      [reflexivity|].
    now destruct (create_fhir_resource "Patient" _).
  - discriminate.
  - now apply pid_message_conversion.
  - reflexivity.
Qed.

Lemma patient_service_to_endpoint_witness :
  exists text,
    PatientService.generate_hl7_message clock_2023
      {| PatientService.mrn := Some "MRN123456";
         PatientService.lastName := "Smith";
         PatientService.firstName := "John";
         PatientService.dob := "12/15/1980";
         PatientService.gender := "M";
         PatientService.insurance := None |}
    = inr text
    /\ receive_hl7_message false server_patients
         (fun _ => server_creates "p1") (fun _ => server_creates "c1") text
       = (inr {| patient_action := "found";
                 patient_id_of := "srv-1";
                 coverage_action := None;
                 coverage_id_of := None |},
          [GetPatients]).
Proof.
  apply (patient_service_to_endpoint false clock_2023 server_patients
           (fun _ => server_creates "p1") (fun _ => server_creates "c1")
           (Some "MRN123456") "Smith" "John" "12/15/1980" "M" "19801215");
    try reflexivity.
  intros s E. injection E as <-. reflexivity.
Defined.
